(** * LiteDRAM TMR core: bank machine, command arbiter, bus steerer, multiplexer

    A shallow embedding of the synchronous logic described by
    [litedram/core/multiplexer.py] and [litedram/core/bankmachine.py].

    Conventions.  A one-bit signal is a [bool]; a multi-bit signal is a [Z]
    (unsigned, with its truncation written out where the source assigns to a
    narrower signal); indices of Python lists (the granted stream, the steerer
    selection, the phase number) are [nat].  A module's combinational
    statements ([self.comb]) become functions of the current registers and
    inputs; its synchronous statements ([self.sync]) become a [step] function
    giving the registers of the next cycle. *)

From Stdlib Require Import ZArith List Bool Lia.
Import ListNotations.

Local Open Scope Z_scope.

(* ------------------------------------------------------------------------- *)
(** ** Migen primitives used by the two source files *)

Module Migen.

(** [slice.indices(n)] of Python: the bound [k] of [v[k:]] or [v[:k]]
    normalised against a signal of [n] bits. *)
Definition slice_index (n k : Z) : Z :=
  if k <? 0 then Z.max (n + k) 0 else Z.min k n.

(** [_Slice(v, start, stop)]: bits [start .. stop-1] of [v]. *)
Definition Slice (v start stop : Z) : Z :=
  if start <? stop then Z.shiftr v start mod 2 ^ (stop - start) else 0.

(** [v[k:]] and [v[:k]] on a signal of [n] bits. *)
Definition slice_from (n v k : Z) : Z := Slice v (slice_index n k) n.
Definition slice_to (n v k : Z) : Z := Slice v 0 (slice_index n k).

(** Assignment to a signal of [w] bits keeps the low [w] bits. *)
Definition trunc (w v : Z) : Z := v mod 2 ^ w.

(** [Array(choices)[key]] with a signal as key.  The lowering builds a
    [Case] over the positions and [makedefault()] turns the largest position
    into the default, so a key past the end reads the last choice. *)
Definition Array_sel {A : Type} (choices : list A) (key : nat) (d : A) : A :=
  nth (Nat.min key (length choices - 1)) choices d.

(** [functools.reduce(op, l)] without an initial value; [None] stands for the
    [TypeError] raised on an empty list. *)
Definition reduce {A : Type} (op : A -> A -> A) (l : list A) : option A :=
  match l with
  | [] => None
  | x :: xs => Some (fold_left op xs x)
  end.

(** *** [migen.genlib.roundrobin.RoundRobin(n, SP_CE)]

    For a grant [i] the constructor nests, for [j = i+1 .. i+n-1], the tests
    [If(request[j % n], grant.eq(j % n)).Else(...)], the test of [i+1] being
    the outermost and the innermost [Else] being empty.  [rr_switch] walks
    that chain. *)
Fixpoint rr_switch (request : list bool) (n j fuel grant : nat) : nat :=
  match fuel with
  | O => grant
  | S fuel' =>
      let t := (j mod n)%nat in
      if nth t request false then t
      else rr_switch request n (S j) fuel' grant
  end.

(** The [Case(self.grant, cases)] has one entry per [i < n] and no default. *)
Definition rr_case (request : list bool) (n grant : nat) : nat :=
  if (grant <? n)%nat then rr_switch request n (S grant) (n - 1) grant
  else grant.

(** The grant register after one clock edge: [If(self.ce, statement)]. *)
Definition RoundRobin_next (n : nat) (request : list bool) (ce : bool)
    (grant : nat) : nat :=
  if ce then rr_case request n grant else grant.

(** The grant signal: a register when [n > 1], the constant 0 otherwise
    ([self.comb += self.grant.eq(0)]). *)
Definition RoundRobin_grant (n grant : nat) : nat :=
  if (1 <? n)%nat then grant else 0%nat.

(** *** [migen.genlib.coding.Decoder(width)]: one-hot of [i], 0 when no case
    matches ([n] is left undriven by the steerer). *)
Definition Decoder_o (width i : Z) : Z :=
  if (0 <=? i) && (i <? width) then Z.shiftl 1 i else 0.

(** *** Statements of a module body

    The bodies of [fsm.act] and of [If] are lists of statements.  In a cycle
    the statements whose conditions hold are carried out in the order they
    are written: a signal takes the value of the last assignment carried out
    and its reset value when there is none, and the FSM moves to the state of
    the last [NextState] carried out and stays where it is when there is
    none. *)
Section Statements.

Variables Sig State V : Type.

#[local] Unset Elimination Schemes.

Inductive Stmt : Type :=
  | Assign (sg : Sig) (v : V)
  | NextState (x : State)
  | If (c : bool) (t e : list Stmt).

#[local] Set Elimination Schemes.

Inductive Action : Type :=
  | Drive (sg : Sig) (v : V)
  | Goto (x : State).

(** The assignments and transitions a statement carries out. *)
Fixpoint carry (st : Stmt) : list Action :=
  match st with
  | Assign sg v => [Drive sg v]
  | NextState x => [Goto x]
  | If c t e => if c then flat_map carry t else flat_map carry e
  end.

Definition carry_all (body : list Stmt) : list Action := flat_map carry body.

Variable Sig_eqb : Sig -> Sig -> bool.

Definition drive (sg : Sig) (acc : V) (act : Action) : V :=
  match act with
  | Drive sg' v => if Sig_eqb sg sg' then v else acc
  | Goto _ => acc
  end.

Definition goto (acc : State) (act : Action) : State :=
  match act with
  | Drive _ _ => acc
  | Goto x => x
  end.

(** The value of signal [sg] in the cycle. *)
Definition value (sg : Sig) (reset : V) (body : list Stmt) : V :=
  fold_left (drive sg) (carry_all body) reset.

(** The state after the clock edge. *)
Definition target (current : State) (body : list Stmt) : State :=
  fold_left goto (carry_all body) current.

(** An action that is no transition. *)
Definition no_goto (act : Action) : Prop :=
  match act with
  | Drive _ _ => True
  | Goto _ => False
  end.

(** An action that, if it drives [sg], drives it with a value in [P]. *)
Definition drives_within (sg : Sig) (P : V -> Prop) (act : Action) : Prop :=
  match act with
  | Drive sg' v => Sig_eqb sg sg' = true -> P v
  | Goto _ => True
  end.

End Statements.

Arguments Assign {Sig State V} sg v.
Arguments NextState {Sig State V} x.
Arguments If {Sig State V} c t e.
Arguments Drive {Sig State V} sg v.
Arguments Goto {Sig State V} x.
Arguments carry {Sig State V} st.
Arguments carry_all {Sig State V} body.
Arguments drive {Sig State V} Sig_eqb sg acc act.
Arguments goto {Sig State V} acc act.
Arguments value {Sig State V} Sig_eqb sg reset body.
Arguments target {Sig State V} current body.
Arguments no_goto {Sig State V} act.
Arguments drives_within {Sig State V} Sig_eqb sg P act.

End Migen.

(* ------------------------------------------------------------------------- *)
(** ** Voting layer *)

Module TMR.

(** At least two of three replicas carry a one. *)
Definition majority (a b c : bool) : bool :=
  (2 <=? Nat.b2n a + Nat.b2n b + Nat.b2n c)%nat.

(** Modelled from the spec: the voter of [litedram/common.py] ([TMRInput],
    [vote_TMR]) is not part of the sources at hand.  Section 4.6 gives
    [vote(a, b, c) = majority(a,b,c)] bit-wise, each bit of a bus voted on its
    own; on [Z] that is the two-out-of-three combination of the replicas. *)
Definition vote (a b c : Z) : Z :=
  Z.lor (Z.lor (Z.land a b) (Z.land b c)) (Z.land a c).

(** Modelled from the spec: the derived flag of a voted value (section 3),
    true when the three replicas agree. *)
Definition unanimous (a b c : Z) : bool := (a =? b) && (b =? c).

(** One-bit replicas. *)
Definition vote1 (a b c : bool) : bool := (a && b) || (b && c) || (a && c).

End TMR.

(* ------------------------------------------------------------------------- *)
(** ** Command streams *)

(** [stream.Endpoint(cmd_request_rw_layout(a, ba))]. *)
Record Endpoint : Type := mkEndpoint {
  valid : bool;
  ready : bool;
  first : bool;
  last : bool;
  a : Z;
  ba : Z;
  cas : bool;
  ras : bool;
  we : bool;
  is_cmd : bool;
  is_read : bool;
  is_write : bool
}.

(** An endpoint nobody drives. *)
Definition idle : Endpoint :=
  mkEndpoint false false false false 0 0 false false false false false false.

(* ------------------------------------------------------------------------- *)
(** ** [_CommandChooser] and [_CommandChooserInt]

    The two classes differ only in who creates the request endpoints; their
    logic is the same statement for statement, so one embedding serves both. *)

Module CommandChooser.
Import Migen.

Record Wants : Type := mkWants {
  want_reads : bool;
  want_writes : bool;
  want_cmds : bool;
  want_activates : bool
}.

Section Chooser.

Variable w : Wants.
Variable requests : list Endpoint.
(** [cmd.ready], driven by the multiplexer. *)
Variable cmd_ready : bool.
(** The grant register of the arbiter. *)
Variable grant_reg : nat.

Definition n : nat := length requests.

Definition is_act_cmd (request : Endpoint) : bool :=
  ras request && negb (cas request) && negb (we request).

Definition command (request : Endpoint) : bool :=
  is_cmd request && want_cmds w &&
  (negb (is_act_cmd request) || want_activates w).

Definition read (request : Endpoint) : bool :=
  Bool.eqb (is_read request) (want_reads w).

Definition write (request : Endpoint) : bool :=
  Bool.eqb (is_write request) (want_writes w).

(** [valids[i]] for the request at position [i]. *)
Definition valid_bit (request : Endpoint) : bool :=
  valid request && (command request || (read request && write request)).

Definition valids : list bool := map valid_bit requests.

Definition grant : nat := RoundRobin_grant n grant_reg.

Definition cmd_valid : bool := Array_sel valids grant false.

(** The fields copied from the granted request whatever [cmd.valid] is. *)
Definition cmd_a : Z := Array_sel (map a requests) grant 0.
Definition cmd_ba : Z := Array_sel (map ba requests) grant 0.
Definition cmd_is_read : bool := Array_sel (map is_read requests) grant false.
Definition cmd_is_write : bool := Array_sel (map is_write requests) grant false.
Definition cmd_is_cmd : bool := Array_sel (map is_cmd requests) grant false.

(** The strobes, left at 0 unless [cmd.valid]. *)
Definition cmd_cas : bool :=
  if cmd_valid then Array_sel (map cas requests) grant false else false.
Definition cmd_ras : bool :=
  if cmd_valid then Array_sel (map ras requests) grant false else false.
Definition cmd_we : bool :=
  if cmd_valid then Array_sel (map we requests) grant false else false.

(** [request.ready] of the request at position [i]. *)
Definition request_ready (i : nat) : bool :=
  if cmd_valid && cmd_ready && (grant =? i)%nat then true else false.

Definition arbiter_ce : bool := cmd_ready || negb cmd_valid.

(** [accept()] *)
Definition accept : bool := cmd_valid && cmd_ready.

(** The grant register after the clock edge. *)
Definition step : nat := RoundRobin_next n valids arbiter_ce grant_reg.

End Chooser.

(** What one cycle presents to the chooser. *)
Record Cycle : Type := mkCycle {
  c_wants : Wants;
  c_requests : list Endpoint;
  c_ready : bool
}.

Definition step_cycle (g : nat) (c : Cycle) : nat :=
  step (c_wants c) (c_requests c) (c_ready c) g.

(** The grant register after a run of cycles. *)
Definition run (g : nat) (cycles : list Cycle) : nat :=
  fold_left step_cycle cycles g.

(** A cycle in which the selected command is valid and not taken. *)
Definition stalled (g : nat) (c : Cycle) : Prop :=
  cmd_valid (c_wants c) (c_requests c) g = true /\ c_ready c = false.

End CommandChooser.

(* ------------------------------------------------------------------------- *)
(** ** [_SteererInt] (and [_Steerer], which has the same synchronous body) *)

Module Steerer.
Import Migen.

Definition STEER_NOP : nat := 0.
Definition STEER_CMD : nat := 1.
Definition STEER_REQ : nat := 2.
Definition STEER_REFRESH : nat := 3.

(** The registered outputs of one DFI phase. *)
Record Phase : Type := mkPhase {
  cs_n : Z;
  bank : Z;
  address : Z;
  cas_n : bool;
  ras_n : bool;
  we_n : bool;
  rddata_en : bool;
  wrdata_en : bool
}.

(** [log2_int(n)]: 0 for 0 and [(n - 1).bit_length()] for a power of two;
    [None] stands for the [ValueError] raised for any other [n]. *)
Definition log2_int (n : Z) : option Z :=
  if n =? 0 then Some 0
  else if (0 <? n) && (2 ^ Z.log2_up n =? n) then Some (Z.log2_up n)
  else None.

Section SteererInt.

(** Width of [cmd.ba]. *)
Variable ba_bits : Z.
Variable nranks : Z.
Variable nphases : nat.
(** The four sources [NOP, CMD, REQ, REFRESH]. *)
Variable commands : list Endpoint.

(** [rankbits] in the body of the loop over the phases, which is reached
    only when [log2_int(nranks)] has returned (see [built]). *)
Definition rankbits : Z :=
  match log2_int nranks with
  | Some r => r
  | None => 0
  end.

Definition valid_and (cmd : Endpoint) (attr : Endpoint -> bool) : bool :=
  valid cmd && ready cmd && attr cmd.

(** [rank_decoder.i]: [Array(cmd.ba[-rankbits:] for cmd in commands)[sel]]. *)
Definition rank_decoder_i (sel : nat) : Z :=
  Array_sel (map (fun cmd => slice_from ba_bits (ba cmd) (- rankbits)) commands)
            sel 0.

Definition rank_decoder_o (sel : nat) : Z := Decoder_o nranks (rank_decoder_i sel).

(** [~rank_decoder.o] on [nranks] bits. *)
Definition not_rank_decoder_o (sel : nat) : Z :=
  trunc nranks (Z.lnot (rank_decoder_o sel)).

Definition next_cs_n (i sel : nat) : Z :=
  if rankbits =? 0 then 0
  else if (i =? 0)%nat then
         (if (sel =? STEER_REFRESH)%nat then 0 else not_rank_decoder_o sel)
       else not_rank_decoder_o sel.

Definition next_bank (sel : nat) : Z :=
  if rankbits =? 0 then
    Array_sel (map (fun cmd => slice_from ba_bits (ba cmd) 0) commands) sel 0
  else
    Array_sel (map (fun cmd => slice_to ba_bits (ba cmd) (- rankbits)) commands)
              sel 0.

(** The registers of phase [i] after the clock edge, [sel] being [self.sel[i]]
    in the current cycle. *)
Definition next_phase (i sel : nat) : Phase :=
  {| cs_n := next_cs_n i sel;
     bank := next_bank sel;
     address := Array_sel (map a commands) sel 0;
     cas_n := negb (Array_sel (map (fun cmd => valid_and cmd cas) commands) sel false);
     ras_n := negb (Array_sel (map (fun cmd => valid_and cmd ras) commands) sel false);
     we_n := negb (Array_sel (map (fun cmd => valid_and cmd we) commands) sel false);
     rddata_en := Array_sel (map (fun cmd => valid_and cmd is_read) commands) sel false;
     wrdata_en := Array_sel (map (fun cmd => valid_and cmd is_write) commands) sel false |}.

(** [for i, (phase, sel) in enumerate(zip(self.dfi.phases, self.sel))]. *)
Definition next_phases (sels : list nat) : list Phase :=
  map (fun p => next_phase (fst p) (snd p)) (combine (seq 0 nphases) sels).

(** The constructor returns unless [log2_int(nranks)], called once per
    phase, raises. *)
Definition built : bool :=
  (nphases =? 0)%nat
  || match log2_int nranks with Some _ => true | None => false end.

(** The registers after the clock edge; there is no steerer, hence [None],
    when the constructor raises. *)
Definition step (sels : list nat) : option (list Phase) :=
  if built then Some (next_phases sels) else None.

End SteererInt.

(** What one cycle presents to the steerer. *)
Record Cycle : Type := mkCycle {
  c_commands : list Endpoint;
  c_sel : list nat
}.

(** The DFI registers seen in cycle [T], from the reset values and the inputs
    of every cycle. *)
Definition dfi_at (ba_bits nranks : Z) (nphases : nat) (reset : list Phase)
    (inputs : nat -> Cycle) (T : nat) : option (list Phase) :=
  match T with
  | O => if built nranks nphases then Some reset else None
  | S t => step ba_bits nranks nphases (c_commands (inputs t)) (c_sel (inputs t))
  end.

(** The source found at the position that [sel] of phase [i] holds in a
    cycle. *)
Definition selected (c : Cycle) (i : nat) : Endpoint :=
  nth (nth i (c_sel c) 0%nat) (c_commands c) idle.

End Steerer.

(* ------------------------------------------------------------------------- *)
(** ** [BankMachine] *)

Module BankMachine.
Import Migen TMR.

(** The states of [self.fsm]; [TRP k] and [TRCD k] are the states chained by
    [fsm.delayed_enter], [k] counting the cycles already waited. *)
Inductive State : Type :=
  | REGULAR
  | PRECHARGE
  | AUTOPRECHARGE
  | ACTIVATE
  | REFRESH
  | TRP (k : nat)
  | TRCD (k : nat).

(** The one-bit signals driven inside [fsm.act]. *)
Inductive Sig : Type :=
  | Cmd_valid
  | Cmd_cas
  | Cmd_ras
  | Cmd_we
  | Cmd_is_cmd
  | Cmd_is_read
  | Cmd_is_write
  | Req_wdata_ready
  | Req_rdata_valid
  | Refresh_gnt
  | Row_open
  | Row_close
  | Row_col_n_addr_sel.

Definition Sig_code (x : Sig) : nat :=
  match x with
  | Cmd_valid => 0 | Cmd_cas => 1 | Cmd_ras => 2 | Cmd_we => 3
  | Cmd_is_cmd => 4 | Cmd_is_read => 5 | Cmd_is_write => 6
  | Req_wdata_ready => 7 | Req_rdata_valid => 8 | Refresh_gnt => 9
  | Row_open => 10 | Row_close => 11 | Row_col_n_addr_sel => 12
  end%nat.

Definition Sig_eqb (x y : Sig) : bool := (Sig_code x =? Sig_code y)%nat.

Record Settings : Type := mkSettings {
  (** [settings.geom.colbits], [settings.geom.rowbits], [settings.geom.addressbits] *)
  colbits : Z;
  rowbits : Z;
  addressbits : Z;
  (** [len(req.addr)] *)
  address_width : Z;
  address_align : Z;
  with_auto_precharge : bool;
  tRP : Z;
  tRCD : Z;
  (** the bank number [n] *)
  bank_n : Z;
  (** the width [ba] of [cmd.ba], [settings.geom.bankbits + log2_int(nranks)] *)
  ba_bits : Z
}.

(** What one of the three copies (lookahead FIFO, buffer, timing controllers)
    presents in a cycle. *)
Record Replica : Type := mkReplica {
  lookahead_sink_ready : bool;
  lookahead_source_valid : bool;
  lookahead_source_addr : Z;
  buffer_source_valid : bool;
  buffer_source_we : bool;
  buffer_source_addr : Z;
  twtpcon_ready : bool;
  trccon_ready : bool;
  trascon_ready : bool
}.

Record Inputs : Type := mkInputs {
  req_valid : bool;
  refresh_req : bool;
  (** [cmd.ready] *)
  cmd_ready : bool;
  (** [self.create_addr_errors.storage] and [addr_error_timer.ready] *)
  create_addr_errors : bool;
  addr_error_timer_ready : bool;
  replica1 : Replica;
  replica2 : Replica;
  replica3 : Replica
}.

Record Regs : Type := mkRegs {
  state : State;
  row : Z;
  row_opened : bool
}.

Section Machine.

Variable s : Settings.
Variable r : Regs.
Variable i : Inputs.

(** [_AddressSlicer] *)
Definition split : Z := colbits s - address_align s.

Definition slicer_row (address : Z) : Z :=
  slice_from (address_width s) address split.

(** [Cat(Replicate(0, self.address_align), address[:split])] *)
Definition slicer_col (address : Z) : Z :=
  Z.shiftl (slice_to (address_width s) address split) (address_align s).




Definition req_lock : bool :=
  vote1 (lookahead_source_valid (replica1 i) || buffer_source_valid (replica1 i))
        (lookahead_source_valid (replica2 i) || buffer_source_valid (replica2 i))
        (lookahead_source_valid (replica3 i) || buffer_source_valid (replica3 i)).

Definition lookAddrVote : Z :=
  vote (lookahead_source_addr (replica1 i)) (lookahead_source_addr (replica2 i))
       (lookahead_source_addr (replica3 i)).

(** [addr_error.eq(-1)] on a signal of [len(req.addr)] bits, else 0. *)
Definition addr_error : Z :=
  if create_addr_errors i && addr_error_timer_ready i
  then trunc (address_width s) (-1) else 0.

Definition buffer_addr : Z :=
  Z.lxor (buffer_source_addr (replica1 i)) addr_error.

Definition bufAddrVote : Z :=
  vote buffer_addr (buffer_source_addr (replica2 i))
       (buffer_source_addr (replica3 i)).

Definition bufAddrVote_unanimous : bool :=
  unanimous buffer_addr (buffer_source_addr (replica2 i))
            (buffer_source_addr (replica3 i)).

Definition lookValidVote : bool :=
  vote1 (lookahead_source_valid (replica1 i)) (lookahead_source_valid (replica2 i))
        (lookahead_source_valid (replica3 i)).

Definition bufValidVote : bool :=
  vote1 (buffer_source_valid (replica1 i)) (buffer_source_valid (replica2 i))
        (buffer_source_valid (replica3 i)).

Definition bufWeVote : bool :=
  vote1 (buffer_source_we (replica1 i)) (buffer_source_we (replica2 i))
        (buffer_source_we (replica3 i)).

Definition twtpVote : bool :=
  vote1 (twtpcon_ready (replica1 i)) (twtpcon_ready (replica2 i))
        (twtpcon_ready (replica3 i)).

Definition trcVote : bool :=
  vote1 (trccon_ready (replica1 i)) (trccon_ready (replica2 i))
        (trccon_ready (replica3 i)).

Definition trasVote : bool :=
  vote1 (trascon_ready (replica1 i)) (trascon_ready (replica2 i))
        (trascon_ready (replica3 i)).

(** Row tracking *)
Definition row_hit : bool := row r =? slicer_row bufAddrVote.

(** [fsm.delayed_enter(name, target, delay)] chains [delay] states from
    [name] to [target], and makes [name] an alias of [target] when
    [delay <= 0]. *)
Definition delayed (name : nat -> State) (target : State) (delay : Z) : State :=
  if 0 <? delay then name 0%nat else target.

Definition delayed_next (name : nat -> State) (target : State) (delay : Z)
    (k : nat) : State :=
  if Z.of_nat (S k) <? delay then name (S k) else target.

(** The body of [fsm.act] for the current state, [auto_precharge] being the
    signal of that name.  (The assignments to [fsm_state], read by the
    logging only, are left out.) *)
Definition act (auto_precharge : bool) : list (Stmt Sig State bool) :=
  match state r with
  | REGULAR =>
      [ If (refresh_req i)
          [ NextState REFRESH ]
          [ If bufValidVote
              [ If (row_opened r)
                  [ If row_hit
                      [ Assign Cmd_valid true;
                        If bufWeVote
                          [ Assign Req_wdata_ready (cmd_ready i);
                            Assign Cmd_is_write true;
                            Assign Cmd_we true ]
                          [ Assign Req_rdata_valid (cmd_ready i);
                            Assign Cmd_is_read true ];
                        Assign Cmd_cas true;
                        If (cmd_ready i && auto_precharge)
                          [ NextState AUTOPRECHARGE ]
                          [] ]
                      [ NextState PRECHARGE ] ]
                  [ NextState ACTIVATE ] ]
              [] ] ]
  | PRECHARGE =>
      [ If (twtpVote && trasVote)
          [ Assign Cmd_valid true;
            If (cmd_ready i)
              [ NextState (delayed TRP ACTIVATE (tRP s - 1)) ]
              [];
            Assign Cmd_ras true;
            Assign Cmd_we true;
            Assign Cmd_is_cmd true ]
          [];
        Assign Row_close true ]
  | AUTOPRECHARGE =>
      [ If (twtpVote && trasVote)
          [ NextState (delayed TRP ACTIVATE (tRP s - 1)) ]
          [];
        Assign Row_close true ]
  | ACTIVATE =>
      [ If trcVote
          [ Assign Row_col_n_addr_sel true;
            Assign Row_open true;
            Assign Cmd_valid true;
            Assign Cmd_is_cmd true;
            If (cmd_ready i)
              [ NextState (delayed TRCD REGULAR (tRCD s - 1)) ]
              [];
            Assign Cmd_ras true ]
          [] ]
  | REFRESH =>
      [ If twtpVote
          [ Assign Refresh_gnt true ]
          [];
        Assign Row_close true;
        Assign Cmd_is_cmd true;
        If (negb (refresh_req i))
          [ NextState REGULAR ]
          [] ]
  | TRP k => [ NextState (delayed_next TRP ACTIVATE (tRP s - 1) k) ]
  | TRCD k => [ NextState (delayed_next TRCD REGULAR (tRCD s - 1) k) ]
  end.

Definition signal (sg : Sig) (auto_precharge : bool) : bool :=
  value Sig_eqb sg false (act auto_precharge).

(** Auto Precharge generation.  [row_close] is driven by statements no
    condition on [auto_precharge] guards, so it is read off the body first. *)
Definition row_close : bool := signal Row_close false.

Definition auto_precharge : bool :=
  if with_auto_precharge s then
    if lookValidVote && bufValidVote then
      if negb (slicer_row lookAddrVote =? slicer_row bufAddrVote)
      then Bool.eqb row_close false
      else false
    else false
  else false.

(** The signals of the cycle. *)
Definition cmd_valid : bool := signal Cmd_valid auto_precharge.
Definition cmd_cas : bool := signal Cmd_cas auto_precharge.
Definition cmd_ras : bool := signal Cmd_ras auto_precharge.
Definition cmd_we : bool := signal Cmd_we auto_precharge.
Definition cmd_is_cmd : bool := signal Cmd_is_cmd auto_precharge.
Definition cmd_is_read : bool := signal Cmd_is_read auto_precharge.
Definition cmd_is_write : bool := signal Cmd_is_write auto_precharge.
Definition req_wdata_ready : bool := signal Req_wdata_ready auto_precharge.
Definition req_rdata_valid : bool := signal Req_rdata_valid auto_precharge.
Definition refresh_gnt : bool := signal Refresh_gnt auto_precharge.
Definition row_open : bool := signal Row_open auto_precharge.
Definition row_col_n_addr_sel : bool := signal Row_col_n_addr_sel auto_precharge.
Definition next_state : State := target (state r) (act auto_precharge).

(** Address generation *)
Definition cmd_ba : Z := trunc (ba_bits s) (bank_n s).

Definition cmd_a : Z :=
  trunc (addressbits s)
    (if row_col_n_addr_sel then slicer_row bufAddrVote
     else Z.lor (Z.shiftl (Z.b2z auto_precharge) 10) (slicer_col bufAddrVote)).

(** The registers after the clock edge. *)
Definition step : Regs :=
  {| state := next_state;
     row := if row_close then row r
            else if row_open then trunc (rowbits s) (slicer_row bufAddrVote)
            else row r;
     row_opened := if row_close then false
                   else if row_open then true
                   else row_opened r |}.

End Machine.

(** The FSM starts in the state of its first [act]. *)
Definition reset : Regs := mkRegs REGULAR 0 false.

End BankMachine.

(* ------------------------------------------------------------------------- *)
(** ** [Multiplexer]: refresh hand-shake, steering selection and control FSM *)

Module Multiplexer.
Import Migen.
Import Steerer.

(** [RTW k] are the states chained by [fsm.delayed_enter("RTW", "WRITE", _)]. *)
Inductive State : Type :=
  | READ
  | WRITE
  | REFRESH
  | WTR
  | RTW (k : nat).

(** The signals driven inside [fsm.act].  The three steerers and the three
    choosers of each kind are given the same statements, so one signal
    stands for each triple; [Sel p] is [steerer_int.sel[p]]. *)
Inductive Sig : Type :=
  | Read_time_en
  | Write_time_en
  | Choose_req_want_reads
  | Choose_req_want_writes
  | Choose_cmd_want_activates
  | Choose_cmd_ready
  | Choose_req_ready
  | RefreshCmd_ready
  | Sel (p : nat).

Definition Sig_code (x : Sig) : nat :=
  match x with
  | Read_time_en => 0 | Write_time_en => 1 | Choose_req_want_reads => 2
  | Choose_req_want_writes => 3 | Choose_cmd_want_activates => 4
  | Choose_cmd_ready => 5 | Choose_req_ready => 6 | RefreshCmd_ready => 7
  | Sel p => 8 + p
  end%nat.

Definition Sig_eqb (x y : Sig) : bool := (Sig_code x =? Sig_code y)%nat.

Record Settings : Type := mkSettings {
  nphases : nat;
  rdphase : Z;
  wrphase : Z;
  read_latency : Z
}.

Record Inputs : Type := mkInputs {
  (** [refreshCmd.valid] and [refreshCmd.last] *)
  refreshCmd_valid : bool;
  refreshCmd_last : bool;
  (** [bm.refresh_gnt for bm in bank_machines] *)
  bm_refresh_gnts : list bool;
  read_available : bool;
  write_available : bool;
  max_read_time : bool;
  max_write_time : bool;
  ras_allowed : bool;
  cas_allowed : bool;
  (** [choose_cmd_activate()] and [choose_req_activate()] *)
  choose_cmd_activate : bool;
  choose_req_activate : bool;
  (** [twtrVote.control] *)
  twtrVote : bool
}.

Section Mux.

Variable s : Settings.
Variable st : State.
Variable i : Inputs.

Definition rdcmdphase : Z := (rdphase s - 1) mod Z.of_nat (nphases s).
Definition wrcmdphase : Z := (wrphase s - 1) mod Z.of_nat (nphases s).

(** [bm.refresh_req] of every bank machine *)
Definition bm_refresh_req : bool := refreshCmd_valid i.

Definition go_to_refresh : bool :=
  match reduce andb (bm_refresh_gnts i) with
  | Some b => b
  | None => false
  end.

(** [steerer_sel(steerer, access)], [phase] and [cmdphase] being those of the
    access. *)
Definition steerer_sel (phase cmdphase : Z) : list (Stmt Sig State nat) :=
  flat_map (fun p =>
    [ Assign (Sel p) STEER_NOP;
      If (Z.of_nat p =? phase) [ Assign (Sel p) STEER_REQ ] [];
      If (Z.of_nat p =? cmdphase) [ Assign (Sel p) STEER_CMD ] [] ])
    (seq 0 (nphases s)).

(** The statements both branches of [If(settings.phy.nphases == 1, ...)]
    consist of. *)
Definition choose_ready (req_activate cmd_activate : bool) : Stmt Sig State nat :=
  If (nphases s =? 1)%nat
    [ Assign Choose_req_ready
        (Nat.b2n (cas_allowed i && (negb req_activate || ras_allowed i))) ]
    [ Assign Choose_cmd_want_activates (Nat.b2n (ras_allowed i));
      Assign Choose_cmd_ready (Nat.b2n (negb cmd_activate || ras_allowed i));
      Assign Choose_req_ready (Nat.b2n (cas_allowed i)) ].

(** The body of [fsm.act] for the current state.  (The assignments to
    [fsm_state], read by the logging only, are left out.) *)
Definition act : list (Stmt Sig State nat) :=
  match st with
  | READ =>
      [ Assign Read_time_en 1%nat;
        Assign Choose_req_want_reads 1%nat;
        choose_ready (choose_req_activate i) (choose_cmd_activate i) ]
      ++ steerer_sel (rdphase s) rdcmdphase
      ++ [ If (write_available i)
             [ If (negb (read_available i) || max_read_time i)
                 [ NextState (if 0 <? read_latency s - 1 then RTW 0 else WRITE) ]
                 [] ]
             [];
           If go_to_refresh
             [ NextState REFRESH ]
             [] ]
  | WRITE =>
      [ Assign Write_time_en 1%nat;
        Assign Choose_req_want_writes 1%nat;
        choose_ready (choose_req_activate i) (choose_cmd_activate i) ]
      ++ steerer_sel (wrphase s) wrcmdphase
      ++ [ If (read_available i)
             [ If (negb (write_available i) || max_write_time i)
                 [ NextState WTR ]
                 [] ]
             [];
           If go_to_refresh
             [ NextState REFRESH ]
             [] ]
  | REFRESH =>
      [ Assign (Sel 0) STEER_REFRESH;
        Assign RefreshCmd_ready 1%nat;
        If (refreshCmd_last i)
          [ NextState READ ]
          [] ]
  | WTR =>
      [ If (twtrVote i)
          [ NextState READ ]
          [] ]
  | RTW k =>
      [ NextState (if Z.of_nat (S k) <? read_latency s - 1 then RTW (S k)
                   else WRITE) ]
  end.

(** [steerer_int.sel[p]] *)
Definition sel (p : nat) : nat := value Sig_eqb (Sel p) STEER_NOP act.

Definition sels : list nat := map sel (seq 0 (nphases s)).

Definition refreshCmd_ready : nat := value Sig_eqb RefreshCmd_ready 0%nat act.

Definition next_state : State := target st act.

End Mux.

(** The FSM starts in the state of its first [act]. *)
Definition reset : State := READ.

(** A bank machine as the controller instantiates it, with its registers and
    the inputs of the cycle. *)
Record Bank : Type := mkBank {
  bm_settings : BankMachine.Settings;
  bm_regs : BankMachine.Regs;
  bm_inputs : BankMachine.Inputs
}.

(** [bm.refresh_req.eq(refreshCmd.valid)] *)
Definition drive_refresh_req (v : bool) (x : BankMachine.Inputs) : BankMachine.Inputs :=
  BankMachine.mkInputs (BankMachine.req_valid x) v (BankMachine.cmd_ready x)
    (BankMachine.create_addr_errors x) (BankMachine.addr_error_timer_ready x)
    (BankMachine.replica1 x) (BankMachine.replica2 x) (BankMachine.replica3 x).

Definition bank_inputs (v : bool) (b : Bank) : BankMachine.Inputs :=
  drive_refresh_req v (bm_inputs b).

Definition bank_refresh_gnt (v : bool) (b : Bank) : bool :=
  BankMachine.refresh_gnt (bm_settings b) (bm_regs b) (bank_inputs v b).

Definition bank_twtpVote (v : bool) (b : Bank) : bool :=
  BankMachine.twtpVote (bank_inputs v b).

(** The inputs of the multiplexer with [bm_refresh_gnts] wired from the
    banks. *)
Definition wire (banks : list Bank) (x : Inputs) : Inputs :=
  mkInputs (refreshCmd_valid x) (refreshCmd_last x)
    (map (bank_refresh_gnt (refreshCmd_valid x)) banks)
    (read_available x) (write_available x) (max_read_time x)
    (max_write_time x) (ras_allowed x) (cas_allowed x)
    (choose_cmd_activate x) (choose_req_activate x) (twtrVote x).

End Multiplexer.

(* ------------------------------------------------------------------------- *)
(** ** The eligibility rule as the specification words it *)

Module ChooserSpec.
Import CommandChooser.

(** Section 4.3: a stream's category matches the mask when it is a read and
    reads are wanted, a write and writes are wanted, or a housekeeping
    command and those are wanted, an activate counting only if activates are
    wanted too. *)
Definition category_matches (w : Wants) (request : Endpoint) : bool :=
  (is_read request && want_reads w)
  || (is_write request && want_writes w)
  || (is_cmd request && want_cmds w
      && (negb (is_act_cmd request) || want_activates w)).

Definition eligible (w : Wants) (request : Endpoint) : bool :=
  valid request && category_matches w request.

(** A stream that carries exactly one category. *)
Definition one_category (request : Endpoint) : bool :=
  match is_read request, is_write request, is_cmd request with
  | true, false, false | false, true, false | false, false, true => true
  | _, _, _ => false
  end.

End ChooserSpec.

(* ------------------------------------------------------------------------- *)
(** ** Runs over several cycles *)

Module Traces.

(** The registers of a bank machine after the cycles of [inputs]. *)
Definition bank_run (s : BankMachine.Settings) (r : BankMachine.Regs)
    (inputs : list BankMachine.Inputs) : BankMachine.Regs :=
  fold_left (BankMachine.step s) inputs r.

(** The state of the control FSM after the cycles of [inputs]. *)
Definition mux_run (s : Multiplexer.Settings) (st : Multiplexer.State)
    (inputs : list Multiplexer.Inputs) : Multiplexer.State :=
  fold_left (Multiplexer.next_state s) inputs st.

(** [bm.cmd], the endpoint a bank machine presents to the multiplexer; its
    [first] and [last] are not driven. *)
Definition bank_cmd (s : BankMachine.Settings) (r : BankMachine.Regs)
    (i : BankMachine.Inputs) : Endpoint :=
  mkEndpoint (BankMachine.cmd_valid s r i) (BankMachine.cmd_ready i)
    false false (BankMachine.cmd_a s r i) (BankMachine.cmd_ba s)
    (BankMachine.cmd_cas s r i) (BankMachine.cmd_ras s r i)
    (BankMachine.cmd_we s r i) (BankMachine.cmd_is_cmd s r i)
    (BankMachine.cmd_is_read s r i) (BankMachine.cmd_is_write s r i).

(** What the registers of a bank machine satisfy in every cycle after reset:
    the row register fits its width, and the chained wait states keep their
    counter below the delay, with the row closed while waiting for tRP and
    open while waiting for tRCD. *)
Definition bank_inv (s : BankMachine.Settings) (r : BankMachine.Regs) : Prop :=
  0 <= BankMachine.row r < 2 ^ BankMachine.rowbits s
  /\ match BankMachine.state r with
     | BankMachine.TRP k =>
         Z.of_nat k < BankMachine.tRP s - 1 /\ BankMachine.row_opened r = false
     | BankMachine.TRCD k =>
         Z.of_nat k < BankMachine.tRCD s - 1 /\ BankMachine.row_opened r = true
     | _ => True
     end.

(** The arbiter of a chooser is enabled in every cycle of the run. *)
Fixpoint enabled_run (g : nat) (cycles : list CommandChooser.Cycle) : Prop :=
  match cycles with
  | [] => True
  | c :: cs =>
      CommandChooser.arbiter_ce (CommandChooser.c_wants c)
        (CommandChooser.c_requests c) (CommandChooser.c_ready c) g = true
      /\ enabled_run (CommandChooser.step_cycle g c) cs
  end.

(** Stream [k] of [n] is eligible in the cycle. *)
Definition eligible_in (n k : nat) (c : CommandChooser.Cycle) : Prop :=
  length (CommandChooser.c_requests c) = n
  /\ nth k (CommandChooser.valids (CommandChooser.c_wants c)
              (CommandChooser.c_requests c)) false = true.

End Traces.

(* ------------------------------------------------------------------------- *)
(** ** [Multiplexer]: read/write turnaround and anti starvation *)

Module Turnaround.
Import Migen.

(** [reads] and [writes] over [requests = [bm.cmd for bm in bank_machines]]. *)
Definition reads (requests : list Endpoint) : list bool :=
  map (fun req => valid req && is_read req) requests.

Definition writes (requests : list Endpoint) : list bool :=
  map (fun req => valid req && is_write req) requests.

(** [reduce(or_, l)]; the list of bank machines is never empty. *)
Definition any (l : list bool) : bool :=
  match reduce orb l with
  | Some b => b
  | None => false
  end.

(** The inputs of the control FSM with [read_available] and
    [write_available] wired from the requests. *)
Definition wire (requests : list Endpoint) (x : Multiplexer.Inputs)
    : Multiplexer.Inputs :=
  Multiplexer.mkInputs (Multiplexer.refreshCmd_valid x)
    (Multiplexer.refreshCmd_last x) (Multiplexer.bm_refresh_gnts x)
    (any (reads requests)) (any (writes requests))
    (Multiplexer.max_read_time x) (Multiplexer.max_write_time x)
    (Multiplexer.ras_allowed x) (Multiplexer.cas_allowed x)
    (Multiplexer.choose_cmd_activate x) (Multiplexer.choose_req_activate x)
    (Multiplexer.twtrVote x).

(** [anti_starvation(timeout)]: the register [time] and the signal
    [max_time], [en] being driven by the control FSM.  Without a timeout
    there is no register and [max_time] is 0.  ([time] is a
    [Signal(max=timeout)], which Migen builds for a timeout of 2 or more.) *)
Section AntiStarvation.

Variable timeout : nat.

Definition t : nat := (timeout - 1)%nat.

Definition max_time (time : nat) : bool :=
  if (timeout =? 0)%nat then false else (time =? 0)%nat.

Definition time_step (en : bool) (time : nat) : nat :=
  if (timeout =? 0)%nat then time
  else if negb en then t
  else if negb (max_time time) then (time - 1)%nat
  else time.

(** [time] after [k] more cycles with [en] high. *)
Definition hold (k : nat) (time : nat) : nat :=
  Nat.iter k (time_step true) time.

End AntiStarvation.

End Turnaround.

(* ------------------------------------------------------------------------- *)
(** ** Logging of a bank machine *)

Module Logging.
Import Migen.

(** A log signal made by [make_log_sig(code)] and followed by
    [log_rising_edge].  [set_after_confirm] tells whether its
    [log_rising_edge] comes after [self.sync += If(ready, statement)] in the
    constructor, in which case its assignment [log_sig.eq(1)] is the later
    one and wins over a confirmation of the same cycle. *)
Record LogSig : Type := mkLogSig {
  log_sig : bool;
  log_code : Z;
  track_edge : bool;
  set_after_confirm : bool
}.

(** Send message based on priority:
    [If(sig0, log_num.eq(code0)).Elif(sig1, log_num.eq(code1))...]. *)
Fixpoint log_num (sigs : list LogSig) : Z :=
  match sigs with
  | [] => 0
  | x :: xs => if log_sig x then log_code x else log_num xs
  end.

(** Request when waiting for any log message *)
Definition request (sigs : list LogSig) : bool :=
  match reduce orb (map log_sig sigs) with
  | Some b => b
  | None => false
  end.

(** The log signals after the clock edge.  [tracks] are the tracked signals
    of the cycle, in the order of the log signals; [earlier] tells whether a
    log signal earlier in the list is set, in which case the
    [If ... Elif] chain of the confirmation does not reach this one. *)
Fixpoint step_from (earlier : bool) (ready : bool) (tracks : list bool)
    (sigs : list LogSig) : list LogSig :=
  match sigs with
  | [] => []
  | x :: xs =>
      let track := hd false tracks in
      let rising := track && negb (track_edge x) in
      let confirmed := ready && negb earlier && log_sig x in
      mkLogSig
        (if set_after_confirm x
         then (if rising then true else if confirmed then false else log_sig x)
         else (if confirmed then false else if rising then true else log_sig x))
        (log_code x) track (set_after_confirm x)
      :: step_from (earlier || log_sig x) ready (tl tracks) xs
  end.

Definition step (ready : bool) (tracks : list bool) (sigs : list LogSig)
    : list LogSig :=
  step_from false ready tracks sigs.

(** The number of log signals that are set. *)
Definition waiting (sigs : list LogSig) : nat :=
  length (filter log_sig sigs).

(** [fsm_state = Signal(max=4)] has two bits; each [fsm.act] of the bank
    machine assigns it its number, the chained wait states leave it at 0. *)
Definition fsm_state (st : BankMachine.State) : Z :=
  trunc 2
    match st with
    | BankMachine.REGULAR => 0
    | BankMachine.PRECHARGE => 1
    | BankMachine.AUTOPRECHARGE => 2
    | BankMachine.ACTIVATE => 3
    | BankMachine.REFRESH => 4
    | BankMachine.TRP _ | BankMachine.TRCD _ => 0
    end.

(** The log signals of a bank machine at reset, in the order of [log_sigs]:
    the verbose ones when [settings.verbose_logging], then the two of the
    non-unanimous votes, whose [log_rising_edge] comes last. *)
Definition bank_log_reset (verbose : bool) : list LogSig :=
  (if verbose
   then map (fun c => mkLogSig false c false false) [0; 1; 2; 3; 4; 5; 6; 9; 10]
   else [])
  ++ [mkLogSig false 7 false true; mkLogSig false 8 false true].

(** The signals tracked in a cycle, in the same order; [valid_vote] is the
    signal tracked for the vote of the buffer valids. *)
Definition bank_tracks (verbose : bool) (s : BankMachine.Settings)
    (r : BankMachine.Regs) (i : BankMachine.Inputs) (valid_vote : bool)
    : list bool :=
  (if verbose
   then [ BankMachine.cmd_valid s r i;
          BankMachine.cmd_ready i;
          fsm_state (BankMachine.state r) =? 0;
          fsm_state (BankMachine.state r) =? 1;
          fsm_state (BankMachine.state r) =? 2;
          fsm_state (BankMachine.state r) =? 3;
          fsm_state (BankMachine.state r) =? 4;
          BankMachine.req_valid i;
          BankMachine.req_wdata_ready s r i || BankMachine.req_rdata_valid s r i ]
   else [])
  ++ [negb (BankMachine.bufAddrVote_unanimous s i); valid_vote].

(** What one cycle presents to the bank machine and its logging. *)
Record Cycle : Type := mkCycle {
  c_inputs : BankMachine.Inputs;
  c_valid_vote : bool;
  c_ready : bool
}.

(** The registers and the log signals of a bank machine after the clock
    edge. *)
Definition bank_step (verbose : bool) (s : BankMachine.Settings)
    (x : BankMachine.Regs * list LogSig) (c : Cycle)
    : BankMachine.Regs * list LogSig :=
  (BankMachine.step s (fst x) (c_inputs c),
   step (c_ready c)
     (bank_tracks verbose s (fst x) (c_inputs c) (c_valid_vote c)) (snd x)).

Definition bank_run (verbose : bool) (s : BankMachine.Settings)
    (cycles : list Cycle) : BankMachine.Regs * list LogSig :=
  fold_left (bank_step verbose s) cycles
    (BankMachine.reset, bank_log_reset verbose).

End Logging.

(* ------------------------------------------------------------------------- *)
(** ** [LiteDRAMController]: the bank machines it creates *)

Module Controller.

Definition nbanks (bankbits : Z) : Z := 2 ^ bankbits.

(** [for n in range(nranks*nbanks)]: the numbers given to the bank machines. *)
Definition bank_numbers (nranks bankbits : Z) : list Z :=
  map Z.of_nat (seq 0 (Z.to_nat (nranks * nbanks bankbits))).

(** The width of [cmd.ba] in a bank machine:
    [settings.geom.bankbits + log2_int(nranks)]. *)
Definition ba_bits (nranks bankbits : Z) : option Z :=
  option_map (Z.add bankbits) (Steerer.log2_int nranks).

End Controller.

(* ------------------------------------------------------------------------- *)
(** * Properties *)

(** ** Voting *)

Section VoteFacts.
Import TMR.

Lemma vote_testbit (x y z k : Z) :
  Z.testbit (vote x y z) k =
  (Z.testbit x k && Z.testbit y k) || (Z.testbit y k && Z.testbit z k)
  || (Z.testbit x k && Z.testbit z k).
Proof.
  unfold vote. now rewrite !Z.lor_spec, !Z.land_spec.
Qed.

Lemma majority_two_of_three (p q t : bool) :
  majority p q t = (p && q) || (q && t) || (p && t).
Proof. now destruct p, q, t. Qed.

Lemma vote_same_l (x y : Z) : vote x x y = x.
Proof.
  apply Z.bits_inj'; intros k _. rewrite vote_testbit.
  destruct (Z.testbit x k), (Z.testbit y k); reflexivity.
Qed.

Lemma vote_comm12 (x y z : Z) : vote x y z = vote y x z.
Proof.
  apply Z.bits_inj'; intros k _. rewrite !vote_testbit.
  destruct (Z.testbit x k), (Z.testbit y k), (Z.testbit z k); reflexivity.
Qed.

Lemma vote_comm23 (x y z : Z) : vote x y z = vote x z y.
Proof.
  apply Z.bits_inj'; intros k _. rewrite !vote_testbit.
  destruct (Z.testbit x k), (Z.testbit y k), (Z.testbit z k); reflexivity.
Qed.

Lemma vote1_majority (p q t : bool) : vote1 p q t = majority p q t.
Proof. now destruct p, q, t. Qed.

(** C9. The vote of three equal replicas is their value, the vote of two
    equal replicas and any third one, in any order, is the value of the two
    (so a single diverging replica is masked, whatever it carries), and bit
    [k] of a voted bus is the majority of the bits [k] of the replicas. *)
Theorem vote_masks_minority :
  forall x y : Z,
    vote x x x = x /\
    vote x x y = x /\ vote x y x = x /\ vote y x x = x /\
    (forall u v t k : Z,
       Z.testbit (vote u v t) k =
       majority (Z.testbit u k) (Z.testbit v k) (Z.testbit t k)).
Proof.
  intros x y. repeat split.
  - apply vote_same_l.
  - apply vote_same_l.
  - rewrite vote_comm23. apply vote_same_l.
  - rewrite vote_comm12, vote_comm23. apply vote_same_l.
  - intros u v t k. rewrite vote_testbit. symmetry. apply majority_two_of_three.
Qed.

End VoteFacts.

(** ** Lists of choices and bodies of statements *)

Section MigenFacts.
Import Migen.

Lemma Array_sel_map {A B : Type} (f : A -> B) (l : list A) (k : nat) (d : A) :
  Array_sel (map f l) k (f d) = f (Array_sel l k d).
Proof.
  unfold Array_sel. rewrite length_map. apply map_nth.
Qed.

Context {Sig State V : Type}.

Lemma carry_all_app (b1 b2 : list (Stmt Sig State V)) :
  carry_all (b1 ++ b2) = carry_all b1 ++ carry_all b2.
Proof. unfold carry_all. apply flat_map_app. Qed.

Lemma target_app (cur : State) (b1 b2 : list (Stmt Sig State V)) :
  target cur (b1 ++ b2) = target (target cur b1) b2.
Proof. unfold target. rewrite carry_all_app. apply fold_left_app. Qed.

(** A body that carries out no transition leaves the state alone. *)
Lemma fold_goto_stays (acts : list (Action Sig State V)) (cur : State) :
  Forall no_goto acts -> fold_left goto acts cur = cur.
Proof.
  induction 1 as [|act acts Hact _ IH]; simpl; [reflexivity|].
  destruct act; simpl in *; [exact IH | contradiction].
Qed.

(** A property of the reset value that every assignment to the signal keeps
    holds of the signal. *)
Lemma fold_drive_within (eqb : Sig -> Sig -> bool) (sg : Sig) (P : V -> Prop)
    (acts : list (Action Sig State V)) (d : V) :
  Forall (drives_within eqb sg P) acts -> P d -> P (fold_left (drive eqb sg) acts d).
Proof.
  intros H. revert d.
  induction H as [|act acts Hact _ IH]; simpl; intros d Hd; [exact Hd|].
  apply IH. destruct act as [sg' v|x]; simpl in *; [|exact Hd].
  destruct (eqb sg sg'); auto.
Qed.

End MigenFacts.

(** ** Command arbiter *)

Section ChooserFacts.
Import Migen CommandChooser.

Lemma rr_switch_lands (request : list bool) (n fuel j g : nat) :
  rr_switch request n j fuel g = g \/
  nth (rr_switch request n j fuel g) request false = true.
Proof.
  revert j. induction fuel as [|fuel IH]; intros j; simpl.
  - now left.
  - destruct (nth (j mod n) request false) eqn:E.
    + now right.
    + apply IH.
Qed.

Lemma rr_case_lands (request : list bool) (n g : nat) :
  rr_case request n g = g \/ nth (rr_case request n g) request false = true.
Proof.
  unfold rr_case. destruct (g <? n)%nat.
  - apply rr_switch_lands.
  - now left.
Qed.

Lemma arbiter_ce_iff (w : Wants) (requests : list Endpoint) (cmd_ready : bool)
    (g : nat) :
  arbiter_ce w requests cmd_ready g = true <->
  accept w requests cmd_ready g = true \/ cmd_valid w requests g = false.
Proof.
  unfold arbiter_ce, accept.
  destruct (cmd_valid w requests g), cmd_ready; simpl; intuition congruence.
Qed.

Lemma step_stalled (g : nat) (c : Cycle) : stalled g c -> step_cycle g c = g.
Proof.
  intros [Hv Hr]. unfold step_cycle, step, RoundRobin_next, arbiter_ce.
  now rewrite Hv, Hr.
Qed.

Lemma run_stalled (g : nat) (cycles : list Cycle) :
  Forall (stalled g) cycles -> run g cycles = g.
Proof.
  unfold run. induction 1 as [|c cycles Hc _ IH]; simpl.
  - reflexivity.
  - now rewrite (step_stalled g c Hc).
Qed.

Lemma rr_switch_first (request : list bool) (n g : nat) :
  forall (fuel o d : nat),
    (o <= d < o + fuel)%nat ->
    nth ((g + d) mod n) request false = true ->
    (forall e : nat, (o <= e < d)%nat ->
                     nth ((g + e) mod n) request false = false) ->
    rr_switch request n (g + o) fuel g = ((g + d) mod n)%nat.
Proof.
  induction fuel as [|fuel IH]; intros o d Hd Hreq Hfirst; [lia|].
  simpl. destruct (Nat.eq_dec o d) as [->|Hne].
  - now rewrite Hreq.
  - rewrite (Hfirst o) by lia.
    replace (S (g + o)) with (g + S o)%nat by lia.
    apply IH; [lia | exact Hreq |]. intros e He. apply Hfirst. lia.
Qed.

Lemma rr_switch_none (request : list bool) (n g : nat) :
  forall (fuel o : nat),
    (forall e : nat, (o <= e < o + fuel)%nat ->
                     nth ((g + e) mod n) request false = false) ->
    rr_switch request n (g + o) fuel g = g.
Proof.
  induction fuel as [|fuel IH]; intros o Hnone; [reflexivity|].
  simpl. rewrite (Hnone o) by lia.
  replace (S (g + o)) with (g + S o)%nat by lia.
  apply IH. intros e He. apply Hnone. lia.
Qed.

Lemma rr_switch_within (request : list bool) (n g : nat) :
  forall (fuel o d : nat),
    (o <= d < o + fuel)%nat ->
    nth ((g + d) mod n) request false = true ->
    exists d' : nat,
      (o <= d' <= d)%nat
      /\ rr_switch request n (g + o) fuel g = ((g + d') mod n)%nat.
Proof.
  induction fuel as [|fuel IH]; intros o d Hd Hreq; [lia|].
  simpl. destruct (nth ((g + o) mod n) request false) eqn:E.
  - exists o. split; [lia | reflexivity].
  - assert (o <> d) by (intros ->; congruence).
    replace (S (g + o)) with (g + S o)%nat by lia.
    destruct (IH (S o) d ltac:(lia) Hreq) as (d' & Hd' & Hs).
    exists d'. split; [lia | exact Hs].
Qed.

Lemma add_mod_neq (n g d : nat) :
  (g < n)%nat -> (1 <= d < n)%nat -> ((g + d) mod n)%nat <> g.
Proof.
  intros Hg Hd. destruct (Nat.lt_ge_cases (g + d) n) as [H|H].
  - rewrite Nat.mod_small by exact H. lia.
  - replace (g + d)%nat with ((g + d - n) + 1 * n)%nat by lia.
    rewrite Nat.Div0.mod_add, Nat.mod_small by lia. lia.
Qed.

Lemma add_mod_reach (n g k : nat) :
  (g < n)%nat -> (k < n)%nat -> k <> g ->
  exists d : nat, (1 <= d < n)%nat /\ ((g + d) mod n)%nat = k.
Proof.
  intros Hg Hk Hne. destruct (Nat.lt_ge_cases g k) as [H|H].
  - exists (k - g)%nat. split; [lia|].
    replace (g + (k - g))%nat with k by lia. now apply Nat.mod_small.
  - exists (k + n - g)%nat. split; [lia|].
    replace (g + (k + n - g))%nat with (k + 1 * n)%nat by lia.
    rewrite Nat.Div0.mod_add. now apply Nat.mod_small.
Qed.

(** C1, as stated, fails: of two streams only stream 0, the granted one, is
    eligible; its read is accepted, and the grant register does not advance. *)
Lemma chooser_grant_advance_counterexample :
  accept (mkWants true false false false)
    [mkEndpoint true false false false 5 0 true false false false true false;
     idle] true 0 = true
  /\ step (mkWants true false false false)
       [mkEndpoint true false false false 5 0 true false false false true false;
        idle] true 0 = 0%nat.
Proof. split; reflexivity. Qed.

(** C1, amended. The arbiter is enabled exactly when its command is accepted
    or is not valid.  The grant register changes exactly when the arbiter is
    enabled and a stream other than the granted one is eligible; it then
    moves to the first eligible stream after the granted one in cyclic
    order.  In every other cycle it keeps its value, so a command that is
    valid and not taken stays selected, over one cycle and over any run of
    such cycles. *)
Theorem chooser_grant_advance :
  forall (w : Wants) (requests : list Endpoint) (cmd_ready : bool) (g : nat),
    (g < n requests)%nat ->
    (arbiter_ce w requests cmd_ready g = true <->
     accept w requests cmd_ready g = true \/ cmd_valid w requests g = false)
    /\ (step w requests cmd_ready g <> g <->
        arbiter_ce w requests cmd_ready g = true
        /\ exists k : nat,
             (k < n requests)%nat /\ k <> g
             /\ nth k (valids w requests) false = true)
    /\ (arbiter_ce w requests cmd_ready g = true ->
        forall d : nat,
          (1 <= d < n requests)%nat ->
          nth ((g + d) mod n requests) (valids w requests) false = true ->
          (forall e : nat,
             (1 <= e < d)%nat ->
             nth ((g + e) mod n requests) (valids w requests) false = false) ->
          step w requests cmd_ready g = ((g + d) mod n requests)%nat)
    /\ (cmd_valid w requests g = true -> cmd_ready = false ->
        step w requests cmd_ready g = g)
    /\ (forall cycles : list Cycle,
          Forall (stalled g) cycles -> run g cycles = g).
Proof.
  intros w requests cmd_ready g Hg.
  assert (Hstep : arbiter_ce w requests cmd_ready g = true ->
                  step w requests cmd_ready g
                  = rr_switch (valids w requests) (n requests) (g + 1)
                      (n requests - 1) g).
  { intros Hce. unfold step, RoundRobin_next, rr_case. rewrite Hce.
    destruct (Nat.ltb_spec g (n requests)); [|lia].
    now replace (S g) with (g + 1)%nat by lia. }
  split; [apply arbiter_ce_iff|]. split; [split|split; [|split]].
  - intros Hmove.
    assert (Hce : arbiter_ce w requests cmd_ready g = true).
    { unfold step, RoundRobin_next in Hmove.
      destruct (arbiter_ce w requests cmd_ready g); [reflexivity|congruence]. }
    split; [exact Hce|].
    assert (Hland : nth (step w requests cmd_ready g) (valids w requests) false
                    = true).
    { unfold step, RoundRobin_next in *. rewrite Hce in *.
      destruct (rr_case_lands (valids w requests) (n requests) g); congruence. }
    exists (step w requests cmd_ready g). split; [|split; assumption].
    destruct (Nat.lt_ge_cases (step w requests cmd_ready g) (n requests))
      as [H|H]; [exact H|].
    rewrite nth_overflow in Hland; [discriminate|].
    unfold valids. rewrite length_map. exact H.
  - intros (Hce & k & Hk & Hne & Hel).
    destruct (add_mod_reach (n requests) g k Hg Hk Hne) as (d & Hd & Hgd).
    rewrite <- Hgd in Hel.
    destruct (rr_switch_within (valids w requests) (n requests) g
                (n requests - 1) 1 d ltac:(lia) Hel) as (d' & Hd' & Hs).
    rewrite (Hstep Hce), Hs. apply add_mod_neq; lia.
  - intros Hce d Hd Hreq Hfirst. rewrite (Hstep Hce).
    apply rr_switch_first; [lia | exact Hreq |].
    intros e He. apply Hfirst. lia.
  - intros Hv Hr. unfold step, RoundRobin_next, arbiter_ce. now rewrite Hv, Hr.
  - apply run_stalled.
Qed.

(** Three streams, the granted stream 0 accepted, stream 2 the only other
    one eligible: the grant moves to stream 2. *)
Lemma chooser_grant_advance_witness :
  step (mkWants true false false false)
    [mkEndpoint true false false false 5 0 true false false false true false;
     idle;
     mkEndpoint true false false false 7 2 true false false false true false]
    true 0 = 2%nat.
Proof.
  destruct (chooser_grant_advance (mkWants true false false false)
    [mkEndpoint true false false false 5 0 true false false false true false;
     idle;
     mkEndpoint true false false false 7 2 true false false false true false]
    true 0 ltac:(simpl; lia)) as (_ & _ & H & _).
  apply (H eq_refl 2%nat); [simpl; lia | reflexivity |].
  intros e He. assert (e = 1%nat) by lia. subst e. reflexivity.
Defined.

(** C2. The ready of the request at position [k] is asserted exactly when
    [k] is the granted position and the chooser's command is valid and
    accepted; a request at any other position sees its ready low. *)
Theorem chooser_ready_only_granted :
  forall (w : Wants) (requests : list Endpoint) (cmd_ready : bool) (g k : nat),
    (request_ready w requests cmd_ready g k = true <->
     grant requests g = k /\ cmd_valid w requests g = true /\ cmd_ready = true)
    /\ (grant requests g <> k -> request_ready w requests cmd_ready g k = false).
Proof.
  intros w requests cmd_ready g k. unfold request_ready.
  destruct (Nat.eqb_spec (grant requests g) k) as [E|E];
    destruct (cmd_valid w requests g), cmd_ready; simpl;
    intuition congruence.
Qed.

(** C3, as stated, fails: with nothing wanted, a valid activate command is
    counted as eligible, although neither housekeeping commands nor
    activates are wanted. *)
Lemma chooser_eligibility_counterexample :
  is_act_cmd
    (mkEndpoint true false false false 0 0 false true false true false false)
  = true
  /\ nth 0 (valids (mkWants false false false false)
      [mkEndpoint true false false false 0 0 false true false true false false])
      false = true
  /\ ChooserSpec.eligible (mkWants false false false false)
      (mkEndpoint true false false false 0 0 false true false true false false)
     = false.
Proof. repeat split. Qed.

(** C3, amended. The bit of a stream in [valids] is set exactly when the
    stream is valid and either it is a housekeeping command, those are
    wanted and, if it is an activate, activates are wanted too, or its
    [is_read] flag equals [want_reads] and its [is_write] flag equals
    [want_writes].  When exactly one of reads and writes is wanted, that is
    the rule of the specification on every stream of a single category. *)
Theorem chooser_eligibility :
  forall (w : Wants) (requests : list Endpoint) (k : nat),
    let request := nth k requests idle in
    (nth k (valids w requests) false = true <->
     valid request = true /\
     ((is_cmd request = true /\ want_cmds w = true /\
       (is_act_cmd request = true -> want_activates w = true))
      \/ (is_read request = want_reads w /\ is_write request = want_writes w)))
    /\ (xorb (want_reads w) (want_writes w) = true ->
        ChooserSpec.one_category request = true ->
        nth k (valids w requests) false = ChooserSpec.eligible w request).
Proof.
  intros w requests k request.
  assert (E : nth k (valids w requests) false = valid_bit w request).
  { unfold valids, request.
    change false with (valid_bit w idle) at 1. apply map_nth. }
  rewrite E. unfold valid_bit, command, read, write, ChooserSpec.eligible,
    ChooserSpec.category_matches, ChooserSpec.one_category.
  destruct w as [wr ww wc wa]; simpl.
  destruct (valid request), (is_cmd request), (is_read request),
    (is_write request), (is_act_cmd request), wr, ww, wc, wa; simpl;
    (split; [split; [intros H | intros [H1 H2]] | intros H1 H2]);
    try discriminate; try reflexivity;
    try (split; [reflexivity|]);
    try (left; repeat split; congruence);
    try (right; split; reflexivity);
    try (destruct H2 as [[? [? ?]]|[? ?]]; try discriminate;
         match goal with H : _ -> _ |- _ => specialize (H eq_refl) end;
         discriminate).
Qed.

End ChooserFacts.

(** ** Bus steerer *)

Section SteererFacts.
Import Migen Steerer.

Lemma Slice_zero (start stop : Z) : Slice 0 start stop = 0.
Proof.
  unfold Slice. destruct (Z.ltb_spec start stop); [|reflexivity].
  rewrite Z.shiftr_0_l. apply Z.mod_0_l. apply Z.pow_nonzero; lia.
Qed.

Lemma nth_combine_seq {A : Type} (l : list A) (d : A) (n p start : nat) :
  (p < n)%nat -> (p < length l)%nat ->
  nth p (combine (seq start n) l) (0%nat, d) = ((start + p)%nat, nth p l d).
Proof.
  revert l p start. induction n as [|n IH]; intros l p start Hn Hl; [lia|].
  destruct l as [|x l]; simpl in Hl; [lia|].
  destruct p as [|p]; simpl.
  - now rewrite Nat.add_0_r.
  - rewrite IH by lia. f_equal. lia.
Qed.

Lemma step_nth (ba_bits nranks : Z) (nphases : nat) (commands : list Endpoint)
    (sels : list nat) (p : nat) (d : Phase) :
  (p < nphases)%nat -> (p < length sels)%nat ->
  nth p (next_phases ba_bits nranks nphases commands sels) d =
  next_phase ba_bits nranks commands p (nth p sels 0%nat).
Proof.
  intros Hn Hl. unfold next_phases.
  rewrite nth_indep with (d' := next_phase ba_bits nranks commands 0 0).
  - change (next_phase ba_bits nranks commands 0 0)
      with ((fun q => next_phase ba_bits nranks commands (fst q) (snd q))
              (0%nat, 0%nat)).
    rewrite map_nth, nth_combine_seq by assumption. reflexivity.
  - rewrite length_map, length_combine, length_seq. lia.
Qed.

Lemma dfi_at_next (ba_bits nranks : Z) (nphases : nat) (reset : list Phase)
    (inputs : nat -> Cycle) (T : nat) (phases : list Phase) :
  dfi_at ba_bits nranks nphases reset inputs (S T) = Some phases ->
  phases = next_phases ba_bits nranks nphases (c_commands (inputs T))
             (c_sel (inputs T)).
Proof.
  unfold dfi_at, step. destruct (built nranks nphases); [|discriminate].
  now intros [= <-].
Qed.

Lemma log2_int_pow2 (rb : Z) : 0 <= rb -> log2_int (2 ^ rb) = Some rb.
Proof.
  intros H. unfold log2_int.
  assert (Hp : 0 < 2 ^ rb) by (apply Z.pow_pos_nonneg; lia).
  destruct (Z.eqb_spec (2 ^ rb) 0); [lia|].
  rewrite Z.log2_up_pow2 by lia.
  destruct (Z.ltb_spec 0 (2 ^ rb)); [|lia]. now rewrite Z.eqb_refl.
Qed.

Lemma Array_sel_slice (f : Z -> Z) (commands : list Endpoint) (sel : nat) :
  f 0 = 0 ->
  Array_sel (map (fun cmd => f (ba cmd)) commands) sel 0 =
  f (ba (Array_sel commands sel idle)).
Proof.
  intros H0.
  rewrite <- (Array_sel_map (fun cmd => f (ba cmd)) commands sel idle).
  simpl. now rewrite H0.
Qed.

Lemma Array_sel_in_range {A : Type} (l : list A) (k : nat) (d : A) :
  (k < length l)%nat -> Array_sel l k d = nth k l d.
Proof.
  intros H. unfold Array_sel. f_equal. lia.
Qed.

(** C8. In a steerer that is built, the registers of phase [p] in cycle
    [T+1] come from the source found, in cycle [T], at the position that
    [sel] of phase [p] holds in the list of sources: the address is that
    source's, the bank is the bank part of its [ba] (all of it in a
    single-rank system), and each strobe (active low) and data enable is
    that source's flag gated by its valid and ready, so none of them is
    asserted unless the source was valid and ready in cycle [T]. *)
Theorem steerer_follows_selected_source :
  forall (ba_bits nranks : Z) (nphases : nat) (reset : list Phase)
         (inputs : nat -> Cycle) (T p : nat) (phases : list Phase),
    dfi_at ba_bits nranks nphases reset inputs (S T) = Some phases ->
    (p < nphases)%nat ->
    (p < length (c_sel (inputs T)))%nat ->
    (nth p (c_sel (inputs T)) 0 < length (c_commands (inputs T)))%nat ->
    let src := selected (inputs T) p in
    let ph := nth p phases (mkPhase 0 0 0 true true true false false) in
    address ph = a src
    /\ bank ph = (if rankbits nranks =? 0 then slice_from ba_bits (ba src) 0
                  else slice_to ba_bits (ba src) (- rankbits nranks))
    /\ cas_n ph = negb (valid src && ready src && cas src)
    /\ ras_n ph = negb (valid src && ready src && ras src)
    /\ we_n ph = negb (valid src && ready src && we src)
    /\ rddata_en ph = valid src && ready src && is_read src
    /\ wrdata_en ph = valid src && ready src && is_write src
    /\ (cas_n ph = false \/ ras_n ph = false \/ we_n ph = false \/
        rddata_en ph = true \/ wrdata_en ph = true ->
        valid src = true /\ ready src = true).
Proof.
  intros ba_bits nranks nphases reset inputs T p phases Hdfi Hn Hl Hsel src ph.
  apply dfi_at_next in Hdfi.
  assert (E : ph = next_phase ba_bits nranks (c_commands (inputs T)) p
                     (nth p (c_sel (inputs T)) 0%nat)).
  { unfold ph. rewrite Hdfi. now apply step_nth. }
  assert (Es : Array_sel (c_commands (inputs T))
                 (nth p (c_sel (inputs T)) 0%nat) idle = src)
    by (unfold src, selected; now apply Array_sel_in_range).
  rewrite E. unfold next_phase, next_bank; simpl.
  rewrite (Array_sel_map a _ _ idle).
  rewrite (Array_sel_map (fun cmd => valid_and cmd cas) _ _ idle).
  rewrite (Array_sel_map (fun cmd => valid_and cmd ras) _ _ idle).
  rewrite (Array_sel_map (fun cmd => valid_and cmd we) _ _ idle).
  rewrite (Array_sel_map (fun cmd => valid_and cmd is_read) _ _ idle).
  rewrite (Array_sel_map (fun cmd => valid_and cmd is_write) _ _ idle).
  rewrite (Array_sel_slice (fun v => slice_from ba_bits v 0))
    by apply Slice_zero.
  rewrite (Array_sel_slice (fun v => slice_to ba_bits v (- rankbits nranks)))
    by apply Slice_zero.
  rewrite Es. unfold valid_and.
  repeat split; try reflexivity;
    destruct (valid src), (ready src), (cas src), (ras src), (we src),
      (is_read src), (is_write src); simpl in *; intuition congruence.
Qed.

(** The second of two phases of a two-rank system given the housekeeping
    command, the second of four distinct sources. *)
Lemma steerer_follows_selected_source_witness :
  exists phases : list Phase,
    dfi_at 4 2 2 [] (fun _ => mkCycle
      [idle;
       mkEndpoint true true false false 5 9 true false false false true false;
       mkEndpoint true false false false 6 2 false true false true false false;
       mkEndpoint true true false false 7 0 true true false true false false]
      [STEER_NOP; STEER_CMD]) 1 = Some phases
    /\ address (nth 1 phases (mkPhase 0 0 0 true true true false false)) = 5
    /\ cas_n (nth 1 phases (mkPhase 0 0 0 true true true false false)) = false
    /\ ras_n (nth 1 phases (mkPhase 0 0 0 true true true false false)) = true.
Proof.
  eexists. split; [reflexivity|].
  pose proof (steerer_follows_selected_source 4 2 2 []
    (fun _ => mkCycle
       [idle;
        mkEndpoint true true false false 5 9 true false false false true false;
        mkEndpoint true false false false 6 2 false true false true false false;
        mkEndpoint true true false false 7 0 true true false true false false]
       [STEER_NOP; STEER_CMD]) 0 1 _ eq_refl
    ltac:(simpl; lia) ltac:(simpl; lia) ltac:(vm_compute; lia)) as H1.
  cbv zeta in H1. destruct H1 as (Ha & _ & Hc & Hr & _).
  split; [exact Ha|]. split; [exact Hc | exact Hr].
Defined.


(** On phase 0 of a multi-rank steerer the override acts: the refresh source
    selected for phase 0 gives it the chip select 0, all ranks selected, in
    the next cycle. *)
Lemma steerer_refresh_cs_phase0 :
  forall (ba_bits nranks : Z) (nphases : nat) (reset : list Phase)
         (inputs : nat -> Cycle) (T : nat) (phases : list Phase),
    dfi_at ba_bits nranks nphases reset inputs (S T) = Some phases ->
    (0 < nphases)%nat ->
    (0 < length (c_sel (inputs T)))%nat ->
    nth 0 (c_sel (inputs T)) 0%nat = STEER_REFRESH ->
    cs_n (nth 0 phases (mkPhase 0 0 0 true true true false false)) = 0.
Proof.
  intros ba_bits nranks nphases reset inputs T phases Hdfi Hn Hl Hs.
  apply dfi_at_next in Hdfi. rewrite Hdfi, step_nth by assumption.
  rewrite Hs. unfold next_phase, next_cs_n; simpl.
  now destruct (rankbits nranks =? 0).
Qed.

End SteererFacts.

(** ** Bank machine *)

Section BankMachineFacts.
Import Migen TMR BankMachine.

Ltac case_if :=
  match goal with
  | |- context [if ?c then _ else _] => destruct c eqn:?
  end.

Ltac open_act :=
  unfold signal, value, target, carry_all, act.

Variable s : Settings.
Variable r : Regs.
Variable i : Inputs.

Lemma cmd_cas_eq (ap : bool) :
  signal s r i Cmd_cas ap =
  match state r with
  | REGULAR =>
      negb (refresh_req i) && bufValidVote i && row_opened r && row_hit s r i
  | _ => false
  end.
Proof.
  open_act. destruct (state r); simpl; repeat (case_if; simpl); reflexivity.
Qed.

Lemma cmd_valid_regular (ap : bool) :
  state r = REGULAR ->
  signal s r i Cmd_valid ap =
  negb (refresh_req i) && bufValidVote i && row_opened r && row_hit s r i.
Proof.
  intros E. open_act. rewrite E; simpl; repeat (case_if; simpl); reflexivity.
Qed.

Lemma row_close_eq (ap : bool) :
  signal s r i Row_close ap =
  match state r with
  | PRECHARGE | AUTOPRECHARGE | REFRESH => true
  | _ => false
  end.
Proof.
  open_act. destruct (state r); simpl; repeat (case_if; simpl); reflexivity.
Qed.

Lemma row_col_n_addr_sel_regular (ap : bool) :
  state r = REGULAR -> signal s r i Row_col_n_addr_sel ap = false.
Proof.
  intros E. open_act. rewrite E; simpl; repeat (case_if; simpl); reflexivity.
Qed.

Lemma refresh_gnt_eq (ap : bool) :
  signal s r i Refresh_gnt ap =
  match state r with
  | REFRESH => twtpVote i
  | _ => false
  end.
Proof.
  open_act. destruct (state r); simpl; repeat (case_if; simpl); reflexivity.
Qed.

Lemma row_close_any (ap : bool) : signal s r i Row_close ap = row_close s r i.
Proof. unfold row_close. now rewrite !row_close_eq. Qed.

(** C4. In a cycle where the bank machine presents a valid command with
    [cas] set, it is in its REGULAR state, a row is open, and the open row
    is the row of the voted address of the current request. *)
Theorem bank_row_hit_command :
  cmd_valid s r i = true ->
  cmd_cas s r i = true ->
  state r = REGULAR
  /\ refresh_req i = false
  /\ bufValidVote i = true
  /\ row_opened r = true
  /\ row r = slicer_row s (bufAddrVote s i).
Proof.
  unfold cmd_valid, cmd_cas. intros _ Hcas. rewrite cmd_cas_eq in Hcas.
  destruct (state r); try discriminate.
  apply andb_prop in Hcas as [Hcas Hhit].
  apply andb_prop in Hcas as [Hcas Hopen].
  apply andb_prop in Hcas as [Href Hval].
  repeat split; try assumption.
  - now destruct (refresh_req i).
  - now apply Z.eqb_eq.
Qed.


(** C6, amended. With auto-precharge enabled, in a cycle where the voted
    lookahead entry and the voted current entry are valid and their rows
    differ, [auto_precharge] is asserted exactly when [row_close] is not,
    that is, outside the PRECHARGE, AUTOPRECHARGE and REFRESH states.  In
    particular it is asserted in REGULAR, the state that issues the reads and
    writes, and the command address then has bit 10 set when it is wider
    than 10 bits. *)
Theorem bank_auto_precharge :
  with_auto_precharge s = true ->
  lookValidVote i = true ->
  bufValidVote i = true ->
  slicer_row s (lookAddrVote i) <> slicer_row s (bufAddrVote s i) ->
  auto_precharge s r i = negb (row_close s r i)
  /\ (row_close s r i = true <->
      state r = PRECHARGE \/ state r = AUTOPRECHARGE \/ state r = REFRESH)
  /\ (state r = REGULAR ->
      auto_precharge s r i = true
      /\ (10 < addressbits s -> Z.testbit (cmd_a s r i) 10 = true)).
Proof.
  intros Hen Hlook Hbuf Hrows.
  assert (Hap : auto_precharge s r i = negb (row_close s r i)).
  { unfold auto_precharge. rewrite Hen, Hlook, Hbuf. simpl.
    destruct (Z.eqb_spec (slicer_row s (lookAddrVote i))
                         (slicer_row s (bufAddrVote s i))); [contradiction|].
    simpl. now destruct (row_close s r i). }
  assert (Hrc : row_close s r i = true <->
                state r = PRECHARGE \/ state r = AUTOPRECHARGE \/ state r = REFRESH).
  { unfold row_close. rewrite row_close_eq.
    destruct (state r); split; intros H; try reflexivity; try discriminate;
      try (now left); try (now right; left); try (now right; right);
      destruct H as [H|[H|H]]; discriminate. }
  split; [exact Hap|]. split; [exact Hrc|].
  intros Hreg.
  assert (Hon : auto_precharge s r i = true).
  { rewrite Hap. unfold row_close. rewrite row_close_eq, Hreg. reflexivity. }
  split; [exact Hon|]. intros Hw.
  unfold cmd_a, row_col_n_addr_sel.
  rewrite row_col_n_addr_sel_regular by exact Hreg. rewrite Hon.
  unfold trunc. rewrite Z.mod_pow2_bits_low by lia.
  rewrite Z.lor_spec, Z.shiftl_spec by lia. reflexivity.
Qed.

End BankMachineFacts.

(** A bank in REGULAR with row 5 open, the three replicas presenting a valid
    write to row 5. *)
Lemma bank_row_hit_command_witness :
  BankMachine.row
    (BankMachine.mkRegs BankMachine.REGULAR 5 true) =
  BankMachine.slicer_row
    (BankMachine.mkSettings 10 14 14 21 3 true 3 3 0 3)
    (BankMachine.bufAddrVote
       (BankMachine.mkSettings 10 14 14 21 3 true 3 3 0 3)
       (BankMachine.mkInputs true false true false false
          (BankMachine.mkReplica true false 0 true true 640 true true true)
          (BankMachine.mkReplica true false 0 true true 640 true true true)
          (BankMachine.mkReplica true false 0 true true 640 true true true))).
Proof.
  apply (bank_row_hit_command
    (BankMachine.mkSettings 10 14 14 21 3 true 3 3 0 3)
    (BankMachine.mkRegs BankMachine.REGULAR 5 true)
    (BankMachine.mkInputs true false true false false
       (BankMachine.mkReplica true false 0 true true 640 true true true)
       (BankMachine.mkReplica true false 0 true true 640 true true true)
       (BankMachine.mkReplica true false 0 true true 640 true true true)));
    reflexivity.
Defined.


(** C6, as stated, fails: in the PRECHARGE state, with auto-precharge
    enabled and valid entries for rows 6 and 5 in the lookahead and current
    stages, [auto_precharge] is low. *)
Lemma bank_auto_precharge_counterexample :
  BankMachine.with_auto_precharge
    (BankMachine.mkSettings 10 14 14 21 3 true 3 3 0 3) = true
  /\ BankMachine.lookValidVote
       (BankMachine.mkInputs true false true false false
          (BankMachine.mkReplica true true 768 true true 640 true true true)
          (BankMachine.mkReplica true true 768 true true 640 true true true)
          (BankMachine.mkReplica true true 768 true true 640 true true true))
     = true
  /\ BankMachine.bufValidVote
       (BankMachine.mkInputs true false true false false
          (BankMachine.mkReplica true true 768 true true 640 true true true)
          (BankMachine.mkReplica true true 768 true true 640 true true true)
          (BankMachine.mkReplica true true 768 true true 640 true true true))
     = true
  /\ BankMachine.slicer_row
       (BankMachine.mkSettings 10 14 14 21 3 true 3 3 0 3)
       (BankMachine.lookAddrVote
          (BankMachine.mkInputs true false true false false
             (BankMachine.mkReplica true true 768 true true 640 true true true)
             (BankMachine.mkReplica true true 768 true true 640 true true true)
             (BankMachine.mkReplica true true 768 true true 640 true true true)))
     = 6
  /\ BankMachine.slicer_row
       (BankMachine.mkSettings 10 14 14 21 3 true 3 3 0 3)
       (BankMachine.bufAddrVote
          (BankMachine.mkSettings 10 14 14 21 3 true 3 3 0 3)
          (BankMachine.mkInputs true false true false false
             (BankMachine.mkReplica true true 768 true true 640 true true true)
             (BankMachine.mkReplica true true 768 true true 640 true true true)
             (BankMachine.mkReplica true true 768 true true 640 true true true)))
     = 5
  /\ BankMachine.auto_precharge
       (BankMachine.mkSettings 10 14 14 21 3 true 3 3 0 3)
       (BankMachine.mkRegs BankMachine.PRECHARGE 5 true)
       (BankMachine.mkInputs true false true false false
          (BankMachine.mkReplica true true 768 true true 640 true true true)
          (BankMachine.mkReplica true true 768 true true 640 true true true)
          (BankMachine.mkReplica true true 768 true true 640 true true true))
     = false.
Proof. repeat split. Qed.

(** The same entries met in the REGULAR state. *)
Lemma bank_auto_precharge_witness :
  BankMachine.auto_precharge
    (BankMachine.mkSettings 10 14 14 21 3 true 3 3 0 3)
    (BankMachine.mkRegs BankMachine.REGULAR 5 true)
    (BankMachine.mkInputs true false true false false
       (BankMachine.mkReplica true true 768 true true 640 true true true)
       (BankMachine.mkReplica true true 768 true true 640 true true true)
       (BankMachine.mkReplica true true 768 true true 640 true true true))
  = true.
Proof.
  apply (bank_auto_precharge
    (BankMachine.mkSettings 10 14 14 21 3 true 3 3 0 3)
    (BankMachine.mkRegs BankMachine.REGULAR 5 true)
    (BankMachine.mkInputs true false true false false
       (BankMachine.mkReplica true true 768 true true 640 true true true)
       (BankMachine.mkReplica true true 768 true true 640 true true true)
       (BankMachine.mkReplica true true 768 true true 640 true true true)));
    try reflexivity.
  vm_compute. discriminate.
Defined.

(** ** Multiplexer and refresh hand-shake *)

Section MultiplexerFacts.
Import Migen Steerer Multiplexer.

Lemma fold_andb_true (l : list bool) (b : bool) :
  fold_left andb l b = true -> b = true /\ Forall (fun g => g = true) l.
Proof.
  revert b. induction l as [|x l IH]; simpl; intros b H.
  - split; [exact H | constructor].
  - apply IH in H as [H1 H2]. apply andb_prop in H1 as [Hb Hx].
    split; [exact Hb | now constructor].
Qed.

Lemma go_to_refresh_all (x : Inputs) :
  go_to_refresh x = true ->
  bm_refresh_gnts x <> [] /\ Forall (fun g => g = true) (bm_refresh_gnts x).
Proof.
  unfold go_to_refresh, reduce. destruct (bm_refresh_gnts x) as [|g gs].
  - discriminate.
  - intros H. apply fold_andb_true in H as [H1 H2].
    split; [discriminate | now constructor].
Qed.

Lemma steerer_sel_no_goto (s : Settings) (phase cmdphase : Z) :
  Forall no_goto (carry_all (steerer_sel s phase cmdphase)).
Proof.
  unfold steerer_sel. induction (seq 0 (nphases s)) as [|p l IH].
  - constructor.
  - cbn [flat_map]. rewrite carry_all_app. apply Forall_app. split; [|exact IH].
    unfold carry_all; simpl.
    destruct (Z.of_nat p =? phase), (Z.of_nat p =? cmdphase); simpl;
      repeat constructor.
Qed.

Lemma steerer_sel_within (s : Settings) (phase cmdphase : Z) (q : nat) :
  Forall (drives_within Sig_eqb (Sel q) (fun v => v <> STEER_REFRESH))
         (carry_all (steerer_sel s phase cmdphase)).
Proof.
  unfold steerer_sel. induction (seq 0 (nphases s)) as [|p l IH].
  - constructor.
  - cbn [flat_map]. rewrite carry_all_app. apply Forall_app. split; [|exact IH].
    unfold carry_all; simpl.
    destruct (Z.of_nat p =? phase), (Z.of_nat p =? cmdphase); simpl;
      repeat constructor; intros _; discriminate.
Qed.

(** The transitions of the control FSM in closed form. *)
Lemma next_state_eq (s : Settings) (st : State) (x : Inputs) :
  next_state s st x =
  match st with
  | READ =>
      if go_to_refresh x then REFRESH
      else if write_available x && (negb (read_available x) || max_read_time x)
      then (if 0 <? read_latency s - 1 then RTW 0 else WRITE)
      else READ
  | WRITE =>
      if go_to_refresh x then REFRESH
      else if read_available x && (negb (write_available x) || max_write_time x)
      then WTR
      else WRITE
  | REFRESH => if refreshCmd_last x then READ else REFRESH
  | WTR => if twtrVote x then READ else WTR
  | RTW k => if Z.of_nat (S k) <? read_latency s - 1 then RTW (S k) else WRITE
  end.
Proof.
  unfold next_state, act. destruct st.
  - rewrite !target_app.
    match goal with
    | |- target (target (target _ ?l1) ?l2) _ = _ =>
        assert (E1 : target READ l1 = READ)
          by (unfold target, carry_all, choose_ready; simpl;
              destruct (nphases s =? 1)%nat; reflexivity);
        assert (E2 : target READ l2 = READ)
          by (unfold target; apply fold_goto_stays, steerer_sel_no_goto);
        rewrite E1, E2
    end.
    unfold target, carry_all; simpl.
    destruct (write_available x), (read_available x), (max_read_time x),
      (go_to_refresh x); reflexivity.
  - rewrite !target_app.
    match goal with
    | |- target (target (target _ ?l1) ?l2) _ = _ =>
        assert (E1 : target WRITE l1 = WRITE)
          by (unfold target, carry_all, choose_ready; simpl;
              destruct (nphases s =? 1)%nat; reflexivity);
        assert (E2 : target WRITE l2 = WRITE)
          by (unfold target; apply fold_goto_stays, steerer_sel_no_goto);
        rewrite E1, E2
    end.
    unfold target, carry_all; simpl.
    destruct (write_available x), (read_available x), (max_write_time x),
      (go_to_refresh x); reflexivity.
  - unfold target, carry_all; simpl. destruct (refreshCmd_last x); reflexivity.
  - unfold target, carry_all; simpl. destruct (twtrVote x); reflexivity.
  - reflexivity.
Qed.

Ltac within :=
  repeat first
    [ apply Forall_nil
    | apply Forall_cons;
      [ simpl; try exact I;
        try (let H := fresh in intros H; first [discriminate H | discriminate])
      | ] ].

(** Only the REFRESH state gives a phase the refresh source. *)
Lemma sel_refresh_only (s : Settings) (st : State) (x : Inputs) (p : nat) :
  sel s st x p = STEER_REFRESH -> st = REFRESH.
Proof.
  destruct st; try reflexivity; intros H; exfalso; revert H;
    unfold sel, value;
    apply (fold_drive_within Sig_eqb (Sel p) (fun v => v <> STEER_REFRESH));
    try discriminate; unfold act.
  - rewrite !carry_all_app. apply Forall_app; split; [|apply Forall_app; split].
    + unfold carry_all, choose_ready; simpl.
      destruct (nphases s =? 1)%nat; simpl; within.
    + apply steerer_sel_within.
    + unfold carry_all; simpl.
      destruct (write_available x), (negb (read_available x) || max_read_time x),
        (go_to_refresh x); simpl; within.
  - rewrite !carry_all_app. apply Forall_app; split; [|apply Forall_app; split].
    + unfold carry_all, choose_ready; simpl.
      destruct (nphases s =? 1)%nat; simpl; within.
    + apply steerer_sel_within.
    + unfold carry_all; simpl.
      destruct (read_available x), (negb (write_available x) || max_write_time x),
        (go_to_refresh x); simpl; within.
  - unfold carry_all; simpl. destruct (twtrVote x); simpl; within.
  - unfold carry_all; simpl. within.
Qed.

Lemma bank_refresh_gnt_guard (v : bool) (b : Bank) :
  bank_refresh_gnt v b = true ->
  BankMachine.state (bm_regs b) = BankMachine.REFRESH
  /\ bank_twtpVote v b = true.
Proof.
  unfold bank_refresh_gnt, bank_twtpVote, BankMachine.refresh_gnt.
  rewrite refresh_gnt_eq.
  destruct (BankMachine.state (bm_regs b)); try discriminate.
  intros H. split; [reflexivity | exact H].
Qed.

(** C5. The control FSM starts outside REFRESH; it moves from another state
    into REFRESH only in a cycle where there is at least one bank machine and
    every bank machine asserts [refresh_gnt], which a bank machine does only
    in its own REFRESH state and with its voted write-to-precharge guard
    ready; and a phase is given the refresh source only in the REFRESH
    state. *)
Theorem refresh_needs_every_bank :
  forall (s : Settings) (st : State) (banks : list Bank) (x : Inputs),
    reset <> REFRESH
    /\ (st <> REFRESH ->
        next_state s st (wire banks x) = REFRESH ->
        go_to_refresh (wire banks x) = true
        /\ banks <> []
        /\ Forall (fun b =>
                     bank_refresh_gnt (refreshCmd_valid x) b = true
                     /\ BankMachine.state (bm_regs b) = BankMachine.REFRESH
                     /\ bank_twtpVote (refreshCmd_valid x) b = true) banks)
    /\ (forall b : Bank,
          bank_twtpVote (refreshCmd_valid x) b = false ->
          bank_refresh_gnt (refreshCmd_valid x) b = false)
    /\ (forall b : Bank,
          In b banks ->
          bank_twtpVote (refreshCmd_valid x) b = false ->
          st <> REFRESH ->
          next_state s st (wire banks x) <> REFRESH)
    /\ (forall p : nat,
          sel s st (wire banks x) p = STEER_REFRESH -> st = REFRESH).
Proof.
  intros s st banks x.
  assert (Hgnt : forall b, bank_twtpVote (refreshCmd_valid x) b = false ->
                           bank_refresh_gnt (refreshCmd_valid x) b = false).
  { intros b Hb. destruct (bank_refresh_gnt (refreshCmd_valid x) b) eqn:E;
      [|reflexivity].
    apply bank_refresh_gnt_guard in E as [_ E]. congruence. }
  assert (Henter : st <> REFRESH ->
            next_state s st (wire banks x) = REFRESH ->
            go_to_refresh (wire banks x) = true
            /\ banks <> []
            /\ Forall (fun b =>
                   bank_refresh_gnt (refreshCmd_valid x) b = true
                   /\ BankMachine.state (bm_regs b) = BankMachine.REFRESH
                   /\ bank_twtpVote (refreshCmd_valid x) b = true) banks).
  { intros Hst Hnext. rewrite next_state_eq in Hnext.
    assert (Hgo : go_to_refresh (wire banks x) = true).
    { destruct st; try contradiction;
        destruct (go_to_refresh (wire banks x)); try reflexivity;
        repeat match type of Hnext with
               | context [if ?c then _ else _] => destruct c
               end; discriminate. }
    split; [exact Hgo|].
    apply go_to_refresh_all in Hgo as [Hne Hall]. simpl in Hne, Hall.
    split.
    - intros ->. now apply Hne.
    - rewrite Forall_map in Hall. apply Forall_impl with (2 := Hall).
      intros b Hb. split; [exact Hb|]. now apply bank_refresh_gnt_guard. }
  repeat split.
  - discriminate.
  - now apply Henter.
  - now apply Henter.
  - now apply Henter.
  - exact Hgnt.
  - intros b Hin Hb Hst Hnext.
    destruct (Henter Hst Hnext) as (_ & _ & Hall).
    rewrite Forall_forall in Hall. destruct (Hall b Hin) as (_ & _ & Hv).
    congruence.
  - apply sel_refresh_only.
Qed.

End MultiplexerFacts.

(** Two banks waiting in REFRESH with their guards ready let the control FSM
    leave READ for REFRESH. *)
Lemma refresh_needs_every_bank_witness :
  Multiplexer.go_to_refresh
    (Multiplexer.wire
       [Multiplexer.mkBank
          (BankMachine.mkSettings 10 14 14 21 3 true 3 3 0 3)
          (BankMachine.mkRegs BankMachine.REFRESH 0 false)
          (BankMachine.mkInputs false true false false false
             (BankMachine.mkReplica true false 0 false false 0 true true true)
             (BankMachine.mkReplica true false 0 false false 0 true true true)
             (BankMachine.mkReplica true false 0 false false 0 false true true));
        Multiplexer.mkBank
          (BankMachine.mkSettings 10 14 14 21 3 true 3 3 1 3)
          (BankMachine.mkRegs BankMachine.REFRESH 7 false)
          (BankMachine.mkInputs false true false false false
             (BankMachine.mkReplica true false 0 false false 0 true true true)
             (BankMachine.mkReplica true false 0 false false 0 true true true)
             (BankMachine.mkReplica true false 0 false false 0 true true true))]
       (Multiplexer.mkInputs true false [] false false false false true true
          false false true))
  = true.
Proof.
  apply (refresh_needs_every_bank
    (Multiplexer.mkSettings 2 1 0 5) Multiplexer.READ
    [Multiplexer.mkBank
       (BankMachine.mkSettings 10 14 14 21 3 true 3 3 0 3)
       (BankMachine.mkRegs BankMachine.REFRESH 0 false)
       (BankMachine.mkInputs false true false false false
          (BankMachine.mkReplica true false 0 false false 0 true true true)
          (BankMachine.mkReplica true false 0 false false 0 true true true)
          (BankMachine.mkReplica true false 0 false false 0 false true true));
     Multiplexer.mkBank
       (BankMachine.mkSettings 10 14 14 21 3 true 3 3 1 3)
       (BankMachine.mkRegs BankMachine.REFRESH 7 false)
       (BankMachine.mkInputs false true false false false
          (BankMachine.mkReplica true false 0 false false 0 true true true)
          (BankMachine.mkReplica true false 0 false false 0 true true true)
          (BankMachine.mkReplica true false 0 false false 0 true true true))]
    (Multiplexer.mkInputs true false [] false false false false true true
       false false true)).
  - discriminate.
  - reflexivity.
Defined.

(** ** Bank machine: addresses, commands and completion *)

Section SlicerFacts.
Import Migen BankMachine.

Lemma Slice_low (v stop : Z) :
  0 <= stop -> Slice v 0 stop = v mod 2 ^ stop.
Proof.
  intros H. unfold Slice. destruct (Z.ltb_spec 0 stop).
  - now rewrite Z.shiftr_0_r, Z.sub_0_r.
  - assert (stop = 0) by lia. subst. now rewrite Z.pow_0_r, Z.mod_1_r.
Qed.

Lemma Slice_high (v start stop : Z) :
  0 <= start <= stop -> 0 <= v < 2 ^ stop ->
  Slice v start stop = v / 2 ^ start.
Proof.
  intros Hs Hv. unfold Slice. rewrite Z.shiftr_div_pow2 by lia.
  assert (Hp : 0 < 2 ^ start) by (apply Z.pow_pos_nonneg; lia).
  destruct (Z.ltb_spec start stop).
  - apply Z.mod_small. split.
    + apply Z.div_pos; lia.
    + apply Z.div_lt_upper_bound; [lia|].
      rewrite <- Z.pow_add_r by lia. now replace (start + (stop - start)) with stop by lia.
  - assert (start = stop) by lia. subst. symmetry. apply Z.div_small. lia.
Qed.

(** X1. An address of [address_width] bits is the row placed above the
    column bits plus the column without its alignment zeros; the column has
    its [address_align] low bits at zero and fits [colbits] bits. *)
Theorem slicer_row_col_roundtrip :
  forall (s : Settings) (address : Z),
    0 <= address_align s <= colbits s ->
    split s <= address_width s ->
    0 <= address < 2 ^ address_width s ->
    address = slicer_row s address * 2 ^ split s
              + Z.shiftr (slicer_col s address) (address_align s)
    /\ slicer_col s address mod 2 ^ address_align s = 0
    /\ 0 <= slicer_col s address < 2 ^ colbits s.
Proof.
  intros s address Ha Hw Hr.
  assert (Hsp : 0 <= split s) by (unfold split; lia).
  assert (Hp : 0 < 2 ^ split s) by (apply Z.pow_pos_nonneg; lia).
  assert (Hq : 0 < 2 ^ address_align s) by (apply Z.pow_pos_nonneg; lia).
  assert (Hrow : slicer_row s address = address / 2 ^ split s).
  { unfold slicer_row, slice_from, slice_index.
    destruct (Z.ltb_spec (split s) 0); [lia|].
    rewrite Z.min_l by lia. apply Slice_high; lia. }
  assert (Hcol : slicer_col s address
                 = (address mod 2 ^ split s) * 2 ^ address_align s).
  { unfold slicer_col, slice_to, slice_index.
    destruct (Z.ltb_spec (split s) 0); [lia|].
    rewrite Z.min_l by lia. rewrite Slice_low by lia.
    apply Z.shiftl_mul_pow2. lia. }
  assert (Hm : 0 <= address mod 2 ^ split s < 2 ^ split s)
    by (apply Z.mod_pos_bound; lia).
  repeat split.
  - rewrite Hrow, Hcol, Z.shiftr_div_pow2 by lia.
    rewrite Z.div_mul by lia.
    rewrite (Z.div_mod address (2 ^ split s)) at 1 by lia. lia.
  - rewrite Hcol. apply Z.mod_mul. lia.
  - rewrite Hcol. lia.
  - rewrite Hcol. replace (colbits s) with (split s + address_align s)
      by (unfold split; lia).
    rewrite Z.pow_add_r by lia. nia.
Qed.

(** An address of row 5 and column word 3. *)
Lemma slicer_row_col_roundtrip_witness :
  643 = slicer_row (mkSettings 10 14 14 21 3 true 3 3 0 3) 643 * 2 ^ 7
        + Z.shiftr (slicer_col (mkSettings 10 14 14 21 3 true 3 3 0 3) 643) 3.
Proof.
  apply (slicer_row_col_roundtrip (mkSettings 10 14 14 21 3 true 3 3 0 3) 643);
    simpl; unfold split; simpl; lia.
Defined.

End SlicerFacts.

Section BankCommandFacts.
Import Migen TMR BankMachine Traces.

Ltac open_bank :=
  unfold bank_cmd, cmd_valid, cmd_cas, cmd_ras, cmd_we, cmd_is_cmd,
    cmd_is_read, cmd_is_write, req_wdata_ready, req_rdata_valid, refresh_gnt,
    row_open, row_col_n_addr_sel, next_state, row_close,
    signal, value, target, carry_all, act.

Ltac split_if :=
  repeat match goal with
         | |- context [if ?c then _ else _] => destruct c eqn:?; simpl
         end.

(** X2. A valid command of a bank machine carries exactly one category: a
    read ([cas] alone), a write ([cas] and [we]), or a housekeeping command,
    which is a precharge ([ras] and [we], in the PRECHARGE state) or an
    activate ([ras] alone, in the ACTIVATE state). *)
Theorem bank_cmd_one_category :
  forall (s : Settings) (r : Regs) (i : Inputs),
    cmd_valid s r i = true ->
    ChooserSpec.one_category (bank_cmd s r i) = true
    /\ (cmd_is_read s r i = true ->
        state r = REGULAR /\ cmd_cas s r i = true /\ cmd_ras s r i = false
        /\ cmd_we s r i = false)
    /\ (cmd_is_write s r i = true ->
        state r = REGULAR /\ cmd_cas s r i = true /\ cmd_ras s r i = false
        /\ cmd_we s r i = true)
    /\ (cmd_is_cmd s r i = true ->
        cmd_cas s r i = false /\ cmd_ras s r i = true
        /\ (cmd_we s r i = true /\ state r = PRECHARGE
            \/ cmd_we s r i = false /\ state r = ACTIVATE)).
Proof.
  intros s r i. unfold ChooserSpec.one_category. open_bank.
  generalize (auto_precharge s r i). intros ap.
  destruct (state r); simpl; split_if; simpl; intros H;
    try discriminate H; repeat split; try reflexivity; try discriminate;
    intros; try discriminate; repeat split; try reflexivity;
    try (left; split; reflexivity); try (right; split; reflexivity).
Qed.

(** A write to the open row 5. *)
Lemma bank_cmd_one_category_witness :
  ChooserSpec.one_category
    (bank_cmd (mkSettings 10 14 14 21 3 true 3 3 0 3) (mkRegs REGULAR 5 true)
       (mkInputs true false true false false
          (mkReplica true false 0 true true 640 true true true)
          (mkReplica true false 0 true true 640 true true true)
          (mkReplica true false 0 true true 640 true true true))) = true.
Proof.
  exact (proj1 (bank_cmd_one_category (mkSettings 10 14 14 21 3 true 3 3 0 3)
           (mkRegs REGULAR 5 true)
           (mkInputs true false true false false
              (mkReplica true false 0 true true 640 true true true)
              (mkReplica true false 0 true true 640 true true true)
              (mkReplica true false 0 true true 640 true true true))
           eq_refl)).
Defined.

(** X3. The completion pulses sent back to the crossbar are the accepted
    data commands: [req.wdata_ready] is high exactly when a valid write
    command is accepted and [req.rdata_valid] exactly when a valid read
    command is accepted, never both in one cycle. *)
Theorem bank_completion_is_accepted_command :
  forall (s : Settings) (r : Regs) (i : Inputs),
    req_wdata_ready s r i
    = cmd_valid s r i && cmd_ready i && cmd_is_write s r i
    /\ req_rdata_valid s r i
       = cmd_valid s r i && cmd_ready i && cmd_is_read s r i
    /\ req_wdata_ready s r i && req_rdata_valid s r i = false.
Proof.
  intros s r i. open_bank.
  generalize (auto_precharge s r i). intros ap.
  destruct (state r); simpl; split_if; simpl;
    repeat split; try reflexivity; try congruence;
    destruct (cmd_ready i); try reflexivity; try discriminate.
Qed.

End BankCommandFacts.

(** ** Bank machine: transitions and row tracking *)

Section BankStepFacts.
Import Migen TMR BankMachine Traces.

Ltac open_bank :=
  unfold step, cmd_valid, cmd_cas, cmd_ras, cmd_we, cmd_is_cmd,
    cmd_is_read, cmd_is_write, req_wdata_ready, req_rdata_valid, refresh_gnt,
    row_open, row_col_n_addr_sel, next_state, row_close,
    signal, value, target, carry_all, act.

Ltac split_if :=
  repeat match goal with
         | |- context [if ?c then _ else _] => destruct c eqn:?; simpl
         end.

(** The registers after the clock edge, state by state. *)
Lemma step_eq (s : Settings) (r : Regs) (i : Inputs) :
  step s r i =
  match state r with
  | REGULAR =>
      mkRegs
        (if refresh_req i then REFRESH
         else if bufValidVote i then
           if row_opened r then
             if row_hit s r i then
               (if cmd_ready i && auto_precharge s r i then AUTOPRECHARGE
                else REGULAR)
             else PRECHARGE
           else ACTIVATE
         else REGULAR)
        (row r) (row_opened r)
  | PRECHARGE =>
      mkRegs
        (if twtpVote i && trasVote i && cmd_ready i
         then delayed TRP ACTIVATE (tRP s - 1) else PRECHARGE)
        (row r) false
  | AUTOPRECHARGE =>
      mkRegs
        (if twtpVote i && trasVote i
         then delayed TRP ACTIVATE (tRP s - 1) else AUTOPRECHARGE)
        (row r) false
  | ACTIVATE =>
      if trcVote i then
        mkRegs
          (if cmd_ready i then delayed TRCD REGULAR (tRCD s - 1) else ACTIVATE)
          (trunc (rowbits s) (slicer_row s (bufAddrVote s i))) true
      else mkRegs ACTIVATE (row r) (row_opened r)
  | REFRESH =>
      mkRegs (if refresh_req i then REFRESH else REGULAR) (row r) false
  | TRP k =>
      mkRegs (delayed_next TRP ACTIVATE (tRP s - 1) k) (row r) (row_opened r)
  | TRCD k =>
      mkRegs (delayed_next TRCD REGULAR (tRCD s - 1) k) (row r) (row_opened r)
  end.
Proof.
  unfold step, row_close. rewrite row_close_eq. open_bank.
  generalize (auto_precharge s r i). intros ap.
  destruct (state r); simpl; split_if;
    first [reflexivity | simpl in *; congruence].
Qed.

Lemma bank_run_cons (s : Settings) (r : Regs) (i : Inputs) (l : list Inputs) :
  bank_run s r (i :: l) = bank_run s (step s r i) l.
Proof. reflexivity. Qed.

Lemma bank_inv_step (s : Settings) (r : Regs) (i : Inputs) :
  0 <= rowbits s -> bank_inv s r -> bank_inv s (step s r i).
Proof.
  intros Hw [Hrow Hst]. rewrite step_eq. unfold bank_inv, delayed, delayed_next.
  assert (Ht : 0 <= trunc (rowbits s) (slicer_row s (bufAddrVote s i))
               < 2 ^ rowbits s).
  { unfold trunc. apply Z.mod_pos_bound. apply Z.pow_pos_nonneg; lia. }
  destruct (state r); simpl; split_if; simpl; repeat split;
    try assumption; try lia; try reflexivity; try apply Ht; try apply Hst;
    now apply Z.ltb_lt.
Qed.

(** X4. In every cycle after reset, whatever the inputs were, the row
    register fits its [rowbits] bits, the counter of a chained wait state is
    below its delay, the row is closed while the machine waits for tRP and
    open while it waits for tRCD. *)
Theorem bank_inv_reachable :
  forall (s : Settings) (inputs : list Inputs),
    0 <= rowbits s ->
    bank_inv s (bank_run s reset inputs).
Proof.
  intros s inputs Hw.
  assert (H : forall r, bank_inv s r -> bank_inv s (bank_run s r inputs)).
  { induction inputs as [|i l IH]; intros r Hr; [exact Hr|].
    rewrite bank_run_cons. apply IH. now apply bank_inv_step. }
  apply H. unfold bank_inv, reset; simpl. split; [|exact I].
  split; [lia | apply Z.pow_pos_nonneg; lia].
Qed.

(** An activate accepted after reset, with tRCD = 3. *)
Lemma bank_inv_reachable_witness :
  bank_inv (mkSettings 10 14 14 21 3 true 3 3 0 3)
    (bank_run (mkSettings 10 14 14 21 3 true 3 3 0 3) reset
       [mkInputs true false true false false
          (mkReplica true false 0 true true 640 true true true)
          (mkReplica true false 0 true true 640 true true true)
          (mkReplica true false 0 true true 640 true true true);
        mkInputs true false true false false
          (mkReplica true false 0 true true 640 true true true)
          (mkReplica true false 0 true true 640 true true true)
          (mkReplica true false 0 true true 640 true true true)]).
Proof.
  apply bank_inv_reachable. simpl. lia.
Defined.

Lemma run_wait_TRP (s : Settings) (inputs : list Inputs) :
  forall (r : Regs) (k : nat),
    state r = TRP k ->
    Z.of_nat k < tRP s - 1 ->
    Z.of_nat (k + length inputs) <= tRP s - 1 ->
    bank_run s r inputs =
    mkRegs (if Z.of_nat (k + length inputs) <? tRP s - 1
            then TRP (k + length inputs) else ACTIVATE)
           (row r) (row_opened r).
Proof.
  induction inputs as [|i l IH]; intros r k Hst Hk Hlen.
  - simpl. rewrite Nat.add_0_r. destruct (Z.ltb_spec (Z.of_nat k) (tRP s - 1));
      [|lia]. destruct r; simpl in *; now subst.
  - rewrite bank_run_cons. simpl length in *.
    assert (E : step s r i =
                mkRegs (delayed_next TRP ACTIVATE (tRP s - 1) k)
                       (row r) (row_opened r))
      by (rewrite step_eq, Hst; reflexivity).
    unfold delayed_next in E.
    destruct (Z.ltb_spec (Z.of_nat (S k)) (tRP s - 1)).
    + rewrite (IH (step s r i) (S k));
        [ | rewrite E; reflexivity | lia | lia ].
      rewrite E. simpl row. simpl row_opened.
      replace (S k + length l)%nat with (k + S (length l))%nat by lia.
      reflexivity.
    + assert (l = []) by (destruct l; [reflexivity | simpl in Hlen; lia]).
      subst l. simpl. rewrite E.
      destruct (Z.ltb_spec (Z.of_nat (k + 1)) (tRP s - 1)); [lia|reflexivity].
Qed.

Lemma run_wait_TRCD (s : Settings) (inputs : list Inputs) :
  forall (r : Regs) (k : nat),
    state r = TRCD k ->
    Z.of_nat k < tRCD s - 1 ->
    Z.of_nat (k + length inputs) <= tRCD s - 1 ->
    bank_run s r inputs =
    mkRegs (if Z.of_nat (k + length inputs) <? tRCD s - 1
            then TRCD (k + length inputs) else REGULAR)
           (row r) (row_opened r).
Proof.
  induction inputs as [|i l IH]; intros r k Hst Hk Hlen.
  - simpl. rewrite Nat.add_0_r. destruct (Z.ltb_spec (Z.of_nat k) (tRCD s - 1));
      [|lia]. destruct r; simpl in *; now subst.
  - rewrite bank_run_cons. simpl length in *.
    assert (E : step s r i =
                mkRegs (delayed_next TRCD REGULAR (tRCD s - 1) k)
                       (row r) (row_opened r))
      by (rewrite step_eq, Hst; reflexivity).
    unfold delayed_next in E.
    destruct (Z.ltb_spec (Z.of_nat (S k)) (tRCD s - 1)).
    + rewrite (IH (step s r i) (S k));
        [ | rewrite E; reflexivity | lia | lia ].
      rewrite E. simpl row. simpl row_opened.
      replace (S k + length l)%nat with (k + S (length l))%nat by lia.
      reflexivity.
    + assert (l = []) by (destruct l; [reflexivity | simpl in Hlen; lia]).
      subst l. simpl. rewrite E.
      destruct (Z.ltb_spec (Z.of_nat (k + 1)) (tRCD s - 1)); [lia|reflexivity].
Qed.

Lemma Slice_nonneg (v start stop : Z) : 0 <= Slice v start stop.
Proof.
  unfold Slice. destruct (Z.ltb_spec start stop); [|lia].
  apply Z.mod_pos_bound. apply Z.pow_pos_nonneg; lia.
Qed.

(** X5. When a precharge command is accepted, the machine enters ACTIVATE
    after [max(tRP - 1, 0)] further cycles, whatever the inputs of those
    cycles; in between it waits in the chained states, and the row is
    closed. *)
Theorem bank_precharge_wait :
  forall (s : Settings) (r : Regs) (i0 : Inputs) (rest : list Inputs),
    state r = PRECHARGE ->
    twtpVote i0 && trasVote i0 && cmd_ready i0 = true ->
    Z.of_nat (length rest) = Z.max (tRP s - 1) 0 ->
    bank_run s r (i0 :: rest) = mkRegs ACTIVATE (row r) false
    /\ (forall j : nat,
          (j < length rest)%nat ->
          bank_run s r (i0 :: firstn j rest) = mkRegs (TRP j) (row r) false).
Proof.
  intros s r i0 rest Hst Hacc Hlen.
  assert (E : step s r i0 =
              mkRegs (delayed TRP ACTIVATE (tRP s - 1)) (row r) false)
    by (rewrite step_eq, Hst, Hacc; reflexivity).
  unfold delayed in E. rewrite !bank_run_cons.
  revert E. destruct (Z.ltb_spec 0 (tRP s - 1)) as [Hd|Hd]; intros E.
  - split.
    + rewrite E.
      rewrite (run_wait_TRP s rest _ 0%nat) by (simpl; first [reflexivity | lia]).
      simpl.
      destruct (Z.ltb_spec (Z.of_nat (length rest)) (tRP s - 1)); [lia|].
      reflexivity.
    + intros j Hj.
      assert (Hf : length (firstn j rest) = j)
        by (rewrite length_firstn; lia).
      rewrite bank_run_cons, E.
      rewrite (run_wait_TRP s (firstn j rest) _ 0%nat)
        by (simpl; rewrite ?Hf; first [reflexivity | lia]).
      simpl. rewrite Hf.
      destruct (Z.ltb_spec (Z.of_nat j) (tRP s - 1)); [reflexivity|lia].
  - assert (rest = []) by (destruct rest; [reflexivity | simpl in Hlen; lia]).
    subst rest. split.
    + simpl. exact E.
    + intros j Hj. simpl in Hj. lia.
Qed.

(** A precharge accepted with tRP = 3. *)
Lemma bank_precharge_wait_witness :
  bank_run (mkSettings 10 14 14 21 3 true 3 3 0 3) (mkRegs PRECHARGE 5 true)
    [mkInputs true false true false false
       (mkReplica true false 0 true true 768 true true true)
       (mkReplica true false 0 true true 768 true true true)
       (mkReplica true false 0 true true 768 true true true);
     mkInputs true true false false false
       (mkReplica false true 0 true true 768 false false false)
       (mkReplica false true 0 true true 768 false false false)
       (mkReplica false true 0 true true 768 false false false);
     mkInputs false false false false false
       (mkReplica true false 0 true true 768 true true true)
       (mkReplica true false 0 true true 768 true true true)
       (mkReplica true false 0 true true 768 true true true)]
  = mkRegs ACTIVATE 5 false.
Proof.
  apply (bank_precharge_wait (mkSettings 10 14 14 21 3 true 3 3 0 3)
           (mkRegs PRECHARGE 5 true)); reflexivity.
Defined.

(** X6. When an activate command is accepted, the machine is back in
    REGULAR after [max(tRCD - 1, 0)] further cycles, whatever the inputs of
    those cycles, with the row open and the row register holding the row of
    the address voted in the cycle of the activate; a request for an address
    of that row, met there without a refresh request, is issued as a data
    command. *)
Theorem bank_activate_then_hit :
  forall (s : Settings) (r : Regs) (i0 : Inputs) (rest : list Inputs)
         (i1 : Inputs),
    state r = ACTIVATE ->
    trcVote i0 = true ->
    cmd_ready i0 = true ->
    Z.of_nat (length rest) = Z.max (tRCD s - 1) 0 ->
    0 <= rowbits s ->
    slicer_row s (bufAddrVote s i0) < 2 ^ rowbits s ->
    bank_run s r (i0 :: rest)
    = mkRegs REGULAR (slicer_row s (bufAddrVote s i0)) true
    /\ (slicer_row s (bufAddrVote s i1) = slicer_row s (bufAddrVote s i0) ->
        bufValidVote i1 = true ->
        refresh_req i1 = false ->
        cmd_valid s (bank_run s r (i0 :: rest)) i1 = true
        /\ cmd_cas s (bank_run s r (i0 :: rest)) i1 = true).
Proof.
  intros s r i0 rest i1 Hst Htrc Hrdy Hlen Hw Hfit.
  assert (Hpos : 0 <= slicer_row s (bufAddrVote s i0)).
  { unfold slicer_row, slice_from. apply Slice_nonneg. }
  assert (E : step s r i0 =
              mkRegs (delayed TRCD REGULAR (tRCD s - 1))
                     (slicer_row s (bufAddrVote s i0)) true).
  { rewrite step_eq, Hst, Htrc, Hrdy. unfold trunc.
    now rewrite Z.mod_small by lia. }
  assert (R : bank_run s r (i0 :: rest)
              = mkRegs REGULAR (slicer_row s (bufAddrVote s i0)) true).
  { unfold delayed in E. rewrite bank_run_cons.
    revert E. destruct (Z.ltb_spec 0 (tRCD s - 1)) as [Hd|Hd]; intros E.
    - rewrite E.
      rewrite (run_wait_TRCD s rest _ 0%nat)
        by (simpl; first [reflexivity | lia]).
      simpl.
      destruct (Z.ltb_spec (Z.of_nat (length rest)) (tRCD s - 1)); [lia|].
      reflexivity.
    - assert (rest = []) by (destruct rest; [reflexivity | simpl in Hlen; lia]).
      subst rest. simpl. exact E. }
  split; [exact R|]. intros Hrow Hval Href. rewrite R.
  unfold cmd_valid, cmd_cas.
  rewrite cmd_cas_eq, cmd_valid_regular by reflexivity.
  unfold row_hit. simpl. rewrite Hval, Href, Hrow, Z.eqb_refl. split; reflexivity.
Qed.

(** An activate of row 5 accepted with tRCD = 3, then a write to row 5. *)
Lemma bank_activate_then_hit_witness :
  bank_run (mkSettings 10 14 14 21 3 true 3 3 0 3) (mkRegs ACTIVATE 0 false)
    [mkInputs true false true false false
       (mkReplica true false 0 true true 640 true true true)
       (mkReplica true false 0 true true 640 true true true)
       (mkReplica true false 0 true true 640 true true true);
     mkInputs true true false false false
       (mkReplica false true 0 true true 768 false false false)
       (mkReplica false true 0 true true 768 false false false)
       (mkReplica false true 0 true true 768 false false false);
     mkInputs false false false false false
       (mkReplica true false 0 true true 768 true true true)
       (mkReplica true false 0 true true 768 true true true)
       (mkReplica true false 0 true true 768 true true true)]
  = mkRegs REGULAR 5 true.
Proof.
  pose (i0 := mkInputs true false true false false
                (mkReplica true false 0 true true 640 true true true)
                (mkReplica true false 0 true true 640 true true true)
                (mkReplica true false 0 true true 640 true true true)).
  pose (rest := [mkInputs true true false false false
                   (mkReplica false true 0 true true 768 false false false)
                   (mkReplica false true 0 true true 768 false false false)
                   (mkReplica false true 0 true true 768 false false false);
                 mkInputs false false false false false
                   (mkReplica true false 0 true true 768 true true true)
                   (mkReplica true false 0 true true 768 true true true)
                   (mkReplica true false 0 true true 768 true true true)]).
  destruct (bank_activate_then_hit (mkSettings 10 14 14 21 3 true 3 3 0 3)
              (mkRegs ACTIVATE 0 false) i0 rest i0
              eq_refl eq_refl eq_refl eq_refl
              ltac:(simpl; lia) ltac:(vm_compute; reflexivity)) as [H _].
  exact H.
Defined.

(** X7. A cycle spent in PRECHARGE, AUTOPRECHARGE or REFRESH closes the
    row: in the next cycle the row is not open and the machine issues no
    read or write, whatever it is presented with. *)
Theorem bank_row_close_stops_data :
  forall (s : Settings) (r : Regs) (i i1 : Inputs),
    state r = PRECHARGE \/ state r = AUTOPRECHARGE \/ state r = REFRESH ->
    row_opened (step s r i) = false
    /\ cmd_cas s (step s r i) i1 = false
    /\ cmd_is_read s (step s r i) i1 = false
    /\ cmd_is_write s (step s r i) i1 = false.
Proof.
  intros s r i i1 Hst.
  assert (Hc : row_opened (step s r i) = false).
  { rewrite step_eq. destruct Hst as [H|[H|H]]; rewrite H; reflexivity. }
  split; [exact Hc|]. revert Hc. generalize (step s r i). intros r1 Hc.
  unfold cmd_cas, cmd_is_read, cmd_is_write, signal, value, carry_all, act.
  generalize (auto_precharge s r1 i1). intros ap.
  destruct (state r1); simpl; rewrite ?Hc; split_if; repeat split;
    reflexivity.
Qed.

(** A cycle of REFRESH, then a request met in REGULAR. *)
Lemma bank_row_close_stops_data_witness :
  cmd_cas (mkSettings 10 14 14 21 3 true 3 3 0 3)
    (step (mkSettings 10 14 14 21 3 true 3 3 0 3) (mkRegs REFRESH 5 true)
       (mkInputs true false true false false
          (mkReplica true false 0 true true 640 true true true)
          (mkReplica true false 0 true true 640 true true true)
          (mkReplica true false 0 true true 640 true true true)))
    (mkInputs true false true false false
       (mkReplica true false 0 true true 640 true true true)
       (mkReplica true false 0 true true 640 true true true)
       (mkReplica true false 0 true true 640 true true true))
  = false.
Proof.
  pose (i := mkInputs true false true false false
               (mkReplica true false 0 true true 640 true true true)
               (mkReplica true false 0 true true 640 true true true)
               (mkReplica true false 0 true true 640 true true true)).
  destruct (bank_row_close_stops_data (mkSettings 10 14 14 21 3 true 3 3 0 3)
              (mkRegs REFRESH 5 true) i i
              (or_intror (or_intror eq_refl))) as (_ & H & _).
  exact H.
Defined.

(** X8. The explicit precharge presents the column address with bit 10 low,
    so it closes this bank only, provided the column field stays below bit
    10 ([colbits <= 10]). *)
Theorem bank_precharge_a10_low :
  forall (s : Settings) (r : Regs) (i : Inputs),
    state r = PRECHARGE ->
    0 <= address_align s <= colbits s ->
    colbits s <= 10 ->
    Z.testbit (cmd_a s r i) 10 = false.
Proof.
  intros s r i Hst Ha Hc.
  assert (Hap : auto_precharge s r i = false).
  { unfold auto_precharge, row_close. rewrite row_close_eq, Hst.
    destruct (with_auto_precharge s), (lookValidVote i && bufValidVote i),
      (negb (slicer_row s (lookAddrVote i) =? slicer_row s (bufAddrVote s i)));
      reflexivity. }
  assert (Hsel : row_col_n_addr_sel s r i = false).
  { unfold row_col_n_addr_sel, signal, value, carry_all, act. rewrite Hst.
    simpl. split_if; reflexivity. }
  unfold cmd_a. rewrite Hsel, Hap. simpl Z.b2z.
  rewrite Z.shiftl_0_l, Z.lor_0_l.
  assert (Hsp : 0 <= split s) by (unfold split; lia).
  assert (Hcol : 0 <= slicer_col s (bufAddrVote s i) < 2 ^ 10).
  { unfold slicer_col. rewrite Z.shiftl_mul_pow2 by lia.
    set (v := slice_to (address_width s) (bufAddrVote s i) (split s)).
    assert (Hv : 0 <= v < 2 ^ split s).
    { unfold v, slice_to, Slice, slice_index.
      destruct (Z.ltb_spec (split s) 0); [lia|].
      destruct (Z.ltb_spec 0 (Z.min (split s) (address_width s))).
      - rewrite Z.sub_0_r.
        pose proof (Z.mod_pos_bound (Z.shiftr (bufAddrVote s i) 0)
                      (2 ^ Z.min (split s) (address_width s))
                      ltac:(apply Z.pow_pos_nonneg; lia)).
        assert (2 ^ Z.min (split s) (address_width s) <= 2 ^ split s)
          by (apply Z.pow_le_mono_r; lia).
        lia.
      - split; [lia | apply Z.pow_pos_nonneg; lia]. }
    assert (Hq : 0 < 2 ^ address_align s) by (apply Z.pow_pos_nonneg; lia).
    assert (2 ^ split s * 2 ^ address_align s <= 2 ^ 10).
    { rewrite <- Z.pow_add_r by lia. apply Z.pow_le_mono_r; unfold split; lia. }
    nia. }
  unfold trunc.
  assert (Hm : 0 <= slicer_col s (bufAddrVote s i) mod 2 ^ addressbits s < 2 ^ 10).
  { destruct (Z.le_gt_cases 0 (addressbits s)).
    - pose proof (Z.mod_pos_bound (slicer_col s (bufAddrVote s i))
                    (2 ^ addressbits s) ltac:(apply Z.pow_pos_nonneg; lia)).
      pose proof (Z.mod_le (slicer_col s (bufAddrVote s i))
                    (2 ^ addressbits s) ltac:(lia)
                    ltac:(apply Z.pow_pos_nonneg; lia)).
      lia.
    - rewrite Z.pow_neg_r by lia. rewrite Z.mod_0_r. lia. }
  rewrite <- (Z.mod_small _ (2 ^ 10) Hm).
  apply Z.mod_pow2_bits_high. lia.
Qed.

(** A precharge with the default geometry. *)
Lemma bank_precharge_a10_low_witness :
  Z.testbit
    (cmd_a (mkSettings 10 14 14 21 3 true 3 3 0 3) (mkRegs PRECHARGE 5 true)
       (mkInputs true false true false false
          (mkReplica true true 768 true true 1023 true true true)
          (mkReplica true true 768 true true 1023 true true true)
          (mkReplica true true 768 true true 1023 true true true))) 10
  = false.
Proof.
  apply bank_precharge_a10_low; simpl; first [reflexivity | lia].
Defined.

(** X9. The vote masks the first replica of the current address: when the
    second and third buffers agree, the voted address is theirs, whatever
    the first buffer holds and whether or not an address error is being
    injected into it. *)
Theorem bank_addr_error_masked :
  forall (s : Settings) (i : Inputs),
    buffer_source_addr (replica2 i) = buffer_source_addr (replica3 i) ->
    bufAddrVote s i = buffer_source_addr (replica2 i).
Proof.
  intros s i H. unfold bufAddrVote. rewrite <- H.
  rewrite vote_comm12, vote_comm23. apply vote_same_l.
Qed.

(** An injected error on the address 640. *)
Lemma bank_addr_error_masked_witness :
  bufAddrVote (mkSettings 10 14 14 21 3 true 3 3 0 3)
    (mkInputs true false true true true
       (mkReplica true false 0 true true 640 true true true)
       (mkReplica true false 0 true true 640 true true true)
       (mkReplica true false 0 true true 640 true true true))
  = 640.
Proof.
  apply (bank_addr_error_masked (mkSettings 10 14 14 21 3 true 3 3 0 3)
           (mkInputs true false true true true
              (mkReplica true false 0 true true 640 true true true)
              (mkReplica true false 0 true true 640 true true true)
              (mkReplica true false 0 true true 640 true true true))).
  reflexivity.
Defined.

End BankStepFacts.

(** ** Command arbiter: the round robin and the selected command *)

Section ArbiterFacts.
Import Migen CommandChooser Traces.

(** X10. An enabled round robin over [n] streams moves the grant to the
    first requesting stream after the granted one, in cyclic order, and
    leaves it where it is when no other stream requests. *)
Theorem round_robin_first_requester :
  forall (request : list bool) (n g : nat),
    (g < n)%nat ->
    (forall d : nat,
       (1 <= d < n)%nat ->
       nth ((g + d) mod n) request false = true ->
       (forall e : nat, (1 <= e < d)%nat ->
                        nth ((g + e) mod n) request false = false) ->
       RoundRobin_next n request true g = ((g + d) mod n)%nat)
    /\ ((forall e : nat, (1 <= e < n)%nat ->
                         nth ((g + e) mod n) request false = false) ->
        RoundRobin_next n request true g = g).
Proof.
  intros request n g Hg. unfold RoundRobin_next, rr_case.
  destruct (Nat.ltb_spec g n); [|lia].
  replace (S g) with (g + 1)%nat by lia. split.
  - intros d Hd Hreq Hfirst. apply rr_switch_first; [lia | exact Hreq |].
    intros e He. apply Hfirst. lia.
  - intros Hnone. apply rr_switch_none. intros e He. apply Hnone. lia.
Qed.

(** Four streams, the grant on stream 2, streams 0 and 2 requesting. *)
Lemma round_robin_first_requester_witness :
  RoundRobin_next 4 [true; false; true; false] true 2 = 0%nat.
Proof.
  apply (proj1 (round_robin_first_requester
                  [true; false; true; false] 4 2 ltac:(lia)) 2%nat);
    [lia | reflexivity |].
  intros e He. assert (e = 1%nat) by lia. subst e. reflexivity.
Defined.

Lemma run_cons (g : nat) (c : Cycle) (cs : list Cycle) :
  run g (c :: cs) = run (step_cycle g c) cs.
Proof. reflexivity. Qed.

(** X11. No starvation: a stream at cyclic distance [d] after the granted
    one, eligible in every cycle, is granted after at most [d] cycles in
    which the arbiter is enabled, hence after at most [n - 1] of them. *)
Theorem chooser_no_starvation :
  forall (n d g : nat) (cycles : list Cycle),
    (g < n)%nat ->
    (d < n)%nat ->
    Forall (eligible_in n ((g + d) mod n)) cycles ->
    enabled_run g cycles ->
    (d <= length cycles)%nat ->
    exists m : nat,
      (m <= d)%nat /\ run g (firstn m cycles) = ((g + d) mod n)%nat.
Proof.
  intros n d. induction d as [d IH] using lt_wf_ind.
  intros g cycles Hg Hd Hel Hen Hlen.
  destruct d as [|d].
  - exists 0%nat. split; [lia|]. simpl.
    rewrite Nat.add_0_r. symmetry. apply Nat.mod_small. exact Hg.
  - destruct cycles as [|c cs]; [simpl in Hlen; lia|].
    simpl in Hen. destruct Hen as [Hce Hen].
    inversion Hel as [|c' cs' [Hn Hk] Hel']; subst c' cs'.
    assert (Hstep : exists d', (1 <= d' <= S d)%nat
                               /\ step_cycle g c = ((g + d') mod n)%nat).
    { unfold step_cycle, step, RoundRobin_next, rr_case.
      rewrite Hce. unfold CommandChooser.n. rewrite Hn.
      destruct (Nat.ltb_spec g n); [|lia].
      replace (S g) with (g + 1)%nat by lia.
      apply rr_switch_within; [lia | exact Hk]. }
    destruct Hstep as (d' & Hd' & Hs).
    assert (Hk' : ((g + S d) mod n = (step_cycle g c + (S d - d')) mod n)%nat).
    { rewrite Hs, Nat.Div0.add_mod_idemp_l. f_equal. lia. }
    destruct (IH (S d - d')%nat ltac:(lia) (step_cycle g c) cs) as (m & Hm & Hr).
    + rewrite Hs. apply Nat.mod_upper_bound. lia.
    + lia.
    + rewrite <- Hk'. exact Hel'.
    + exact Hen.
    + simpl in Hlen. lia.
    + exists (S m). split; [lia|].
      simpl firstn. rewrite run_cons, Hr. symmetry. exact Hk'.
Qed.

(** Three streams that stay eligible, nothing wanted but idle housekeeping
    commands ready to be taken: stream 2 is granted within two cycles. *)
Lemma chooser_no_starvation_witness :
  exists m : nat,
    (m <= 2)%nat
    /\ run 0 (firstn m
         [mkCycle (mkWants false false false false)
            [mkEndpoint true false false false 0 0 false false false true false false;
             mkEndpoint true false false false 0 1 false false false true false false;
             mkEndpoint true false false false 0 2 false false false true false false]
            true;
          mkCycle (mkWants false false false false)
            [mkEndpoint true false false false 0 0 false false false true false false;
             mkEndpoint true false false false 0 1 false false false true false false;
             mkEndpoint true false false false 0 2 false false false true false false]
            true]) = 2%nat.
Proof.
  apply (chooser_no_starvation 3 2 0); try lia.
  - repeat constructor.
  - simpl. repeat split.
  - simpl. lia.
Defined.

(** X12. A valid command of the chooser, with the grant within the list,
    is the request at the granted position of the list, and that request is
    valid and eligible: the address, the bank, the strobes and the category
    flags all come from that one request. *)
Theorem chooser_cmd_is_granted_request :
  forall (w : Wants) (requests : list Endpoint) (g : nat),
    cmd_valid w requests g = true ->
    (grant requests g < length requests)%nat ->
    let q := nth (grant requests g) requests idle in
    nth_error requests (grant requests g) = Some q
    /\ valid q = true
    /\ valid_bit w q = true
    /\ cmd_a requests g = a q
    /\ cmd_ba requests g = ba q
    /\ cmd_cas w requests g = cas q
    /\ cmd_ras w requests g = ras q
    /\ cmd_we w requests g = we q
    /\ cmd_is_cmd requests g = is_cmd q
    /\ cmd_is_read requests g = is_read q
    /\ cmd_is_write requests g = is_write q.
Proof.
  intros w requests g Hv Hg q.
  assert (Es : Array_sel requests (grant requests g) idle = q)
    by (unfold q; now apply Array_sel_in_range).
  assert (Hq : valid_bit w q = true).
  { unfold cmd_valid, valids in Hv.
    change false with (valid_bit w idle) in Hv.
    now rewrite Array_sel_map, Es in Hv. }
  unfold cmd_a, cmd_ba, cmd_cas, cmd_ras, cmd_we, cmd_is_cmd, cmd_is_read,
    cmd_is_write. rewrite Hv.
  rewrite (Array_sel_map a _ _ idle), (Array_sel_map ba _ _ idle),
    (Array_sel_map cas _ _ idle), (Array_sel_map ras _ _ idle),
    (Array_sel_map we _ _ idle), (Array_sel_map is_cmd _ _ idle),
    (Array_sel_map is_read _ _ idle), (Array_sel_map is_write _ _ idle).
  rewrite Es. repeat split; try assumption.
  - unfold q. now apply nth_error_nth'.
  - unfold valid_bit in Hq. now destruct (valid q).
Qed.

(** Three valid requests, the first one granted. *)
Lemma chooser_cmd_is_granted_request_witness :
  cmd_a
    [mkEndpoint true false false false 7 0 false true false true false false;
     mkEndpoint true false false false 9 1 false true false true false false;
     mkEndpoint true false false false 11 2 false true false true false false]
    0 = 7.
Proof.
  destruct (chooser_cmd_is_granted_request (mkWants false false true true)
    [mkEndpoint true false false false 7 0 false true false true false false;
     mkEndpoint true false false false 9 1 false true false true false false;
     mkEndpoint true false false false 11 2 false true false true false false]
    0 eq_refl ltac:(vm_compute; lia)) as (_ & _ & _ & H & _).
  exact H.
Defined.

End ArbiterFacts.

(** ** Bus steerer and controller: ranks and banks *)

Section RankFacts.
Import Migen Steerer.

(** X13. In a system of [2 ^ rb] ranks ([rb > 0]) whose [ba] has [bankbits]
    bank bits below the [rb] rank bits, a phase that is not the refresh
    override registers the low [bankbits] bits of the selected [ba] as bank,
    and a chip select in which exactly the rank given by the high bits is
    low. *)
Theorem steerer_rank_decode :
  forall (bankbits rb : Z) (commands : list Endpoint) (p sel : nat),
    0 <= bankbits ->
    0 < rb ->
    0 <= ba (Array_sel commands sel idle) < 2 ^ (bankbits + rb) ->
    p <> 0%nat \/ sel <> STEER_REFRESH ->
    bank (next_phase (bankbits + rb) (2 ^ rb) commands p sel)
    = ba (Array_sel commands sel idle) mod 2 ^ bankbits
    /\ (forall k : Z,
          0 <= k < 2 ^ rb ->
          Z.testbit (cs_n (next_phase (bankbits + rb) (2 ^ rb) commands p sel)) k
          = negb (k =? ba (Array_sel commands sel idle) / 2 ^ bankbits)).
Proof.
  intros bankbits rb commands p sel Hb Hr Hba Hov.
  set (v := ba (Array_sel commands sel idle)) in *.
  assert (Hrb : rankbits (2 ^ rb) = rb)
    by (unfold rankbits; rewrite log2_int_pow2 by lia; reflexivity).
  assert (Hidx : slice_index (bankbits + rb) (- rb) = bankbits).
  { unfold slice_index. destruct (Z.ltb_spec (- rb) 0); lia. }
  assert (Hpb : 0 < 2 ^ bankbits) by (apply Z.pow_pos_nonneg; lia).
  assert (Hi : 0 <= v / 2 ^ bankbits < 2 ^ rb).
  { split; [apply Z.div_pos; lia|].
    apply Z.div_lt_upper_bound; [lia|]. rewrite <- Z.pow_add_r by lia. lia. }
  unfold next_phase; simpl. split.
  - unfold next_bank. rewrite Hrb.
    destruct (Z.eqb_spec rb 0); [lia|].
    rewrite (Array_sel_slice (fun x => slice_to (bankbits + rb) x (- rb)))
      by apply Slice_zero.
    fold v. unfold slice_to. rewrite Hidx. now apply Slice_low.
  - intros k Hk.
    assert (Hcs : next_cs_n (bankbits + rb) (2 ^ rb) commands p sel
                  = not_rank_decoder_o (bankbits + rb) (2 ^ rb) commands sel).
    { unfold next_cs_n. rewrite Hrb. destruct (Z.eqb_spec rb 0); [lia|].
      destruct (Nat.eqb_spec p 0); [|reflexivity].
      destruct (Nat.eqb_spec sel STEER_REFRESH); [|reflexivity].
      destruct Hov; contradiction. }
    rewrite Hcs. unfold not_rank_decoder_o, rank_decoder_o, rank_decoder_i.
    rewrite Hrb.
    rewrite (Array_sel_slice (fun x => slice_from (bankbits + rb) x (- rb)))
      by apply Slice_zero.
    fold v. unfold slice_from. rewrite Hidx.
    rewrite Slice_high by lia.
    unfold Decoder_o, trunc.
    destruct (Z.leb_spec 0 (v / 2 ^ bankbits)); [|lia].
    destruct (Z.ltb_spec (v / 2 ^ bankbits) (2 ^ rb)); [|lia]. simpl.
    rewrite Z.mod_pow2_bits_low by lia.
    rewrite Z.lnot_spec by lia.
    rewrite Z.shiftl_1_l, Z.pow2_bits_eqb by lia.
    now rewrite Z.eqb_sym.
Qed.

(** Bank 1 of rank 1 in a system of two ranks of eight banks. *)
Lemma steerer_rank_decode_witness :
  bank (next_phase (3 + 1) (2 ^ 1)
          [idle;
           mkEndpoint true true false false 5 9 true false false false true false]
          1 STEER_CMD)
  = 9 mod 2 ^ 3.
Proof.
  apply (steerer_rank_decode 3 1
           [idle;
            mkEndpoint true true false false 5 9 true false false false true false]
           1 STEER_CMD);
    first [lia | simpl; lia | left; discriminate].
Defined.

(** X14. The numbers the controller gives to its [nranks * 2 ^ bankbits]
    bank machines all fit the [bankbits + log2_int(nranks)] bits of [cmd.ba],
    so a bank machine presents its own number as [cmd.ba], and the bank and
    rank read back from [ba] tell the bank machines apart. *)
Theorem controller_bank_numbers_fit :
  forall (bankbits rb n : Z),
    0 <= bankbits ->
    0 <= rb ->
    In n (Controller.bank_numbers (2 ^ rb) bankbits) ->
    Controller.ba_bits (2 ^ rb) bankbits = Some (bankbits + rb)
    /\ 0 <= n < 2 ^ (bankbits + rb)
    /\ (forall s : BankMachine.Settings,
          BankMachine.bank_n s = n ->
          Controller.ba_bits (2 ^ rb) bankbits = Some (BankMachine.ba_bits s) ->
          BankMachine.cmd_ba s = n)
    /\ n = (n / 2 ^ bankbits) * 2 ^ bankbits + n mod 2 ^ bankbits
    /\ 0 <= n / 2 ^ bankbits < 2 ^ rb
    /\ 0 <= n mod 2 ^ bankbits < Controller.nbanks bankbits.
Proof.
  intros bankbits rb n Hb Hr Hin.
  unfold Controller.bank_numbers, Controller.nbanks in *.
  apply in_map_iff in Hin as (k & <- & Hk). apply in_seq in Hk.
  assert (Hpb : 0 < 2 ^ bankbits) by (apply Z.pow_pos_nonneg; lia).
  assert (Hpr : 0 < 2 ^ rb) by (apply Z.pow_pos_nonneg; lia).
  assert (Hlt : Z.of_nat k < 2 ^ rb * 2 ^ bankbits) by lia.
  assert (Hw : Controller.ba_bits (2 ^ rb) bankbits = Some (bankbits + rb))
    by (unfold Controller.ba_bits; now rewrite log2_int_pow2 by lia).
  assert (Hfit : 0 <= Z.of_nat k < 2 ^ (bankbits + rb))
    by (rewrite Z.pow_add_r by lia; lia).
  split; [exact Hw|]. split; [exact Hfit|]. split.
  { intros s Hn Hs. rewrite Hw in Hs. injection Hs as Hs.
    unfold BankMachine.cmd_ba, Migen.trunc. rewrite Hn, <- Hs.
    apply Z.mod_small. exact Hfit. }
  repeat split; try lia.
  - rewrite Z.mul_comm. apply Z.div_mod. lia.
  - apply Z.div_pos; lia.
  - apply Z.div_lt_upper_bound; lia.
  - apply Z.mod_pos_bound; lia.
  - apply Z.mod_pos_bound; lia.
Qed.

(** Bank machine 9 of two ranks of eight banks. *)
Lemma controller_bank_numbers_fit_witness :
  0 <= 9 < 2 ^ (3 + 1).
Proof.
  apply (controller_bank_numbers_fit 3 1 9); try lia.
  vm_compute. tauto.
Defined.

End RankFacts.

(** ** Multiplexer: steering selection, turnaround and anti starvation *)

Section MuxMoreFacts.
Import Migen Steerer Multiplexer Traces.

Lemma value_app {Sig State V : Type} (eqb : Sig -> Sig -> bool) (sg : Sig)
    (d : V) (b1 b2 : list (Stmt Sig State V)) :
  value eqb sg d (b1 ++ b2) = value eqb sg (value eqb sg d b1) b2.
Proof. unfold value. rewrite carry_all_app. apply fold_left_app. Qed.

(** The value [steerer_sel] gives to the selection of phase [p]. *)
Lemma steerer_sel_value (phase cmdphase : Z) (p : nat) :
  forall (n start : nat) (d : nat),
    fold_left (drive Sig_eqb (Sel p))
      (carry_all
         (flat_map (fun q =>
            [ Assign (State := State) (Sel q) STEER_NOP;
              If (Z.of_nat q =? phase) [ Assign (Sel q) STEER_REQ ] [];
              If (Z.of_nat q =? cmdphase) [ Assign (Sel q) STEER_CMD ] [] ])
            (seq start n))) d
    = if (start <=? p)%nat && (p <? start + n)%nat
      then (if Z.of_nat p =? cmdphase then STEER_CMD
            else if Z.of_nat p =? phase then STEER_REQ
            else STEER_NOP)
      else d.
Proof.
  induction n as [|n IH]; intros start d.
  - simpl. destruct (Nat.leb_spec start p), (Nat.ltb_spec p (start + 0));
      simpl; try reflexivity; lia.
  - cbn [seq flat_map]. rewrite carry_all_app, fold_left_app, IH.
    unfold carry_all at 1. cbn [flat_map carry app].
    unfold Sig_eqb. cbn [Sig_code]. rewrite !app_nil_r.
    destruct (Nat.eqb_spec (8 + p) (8 + start)) as [E|E].
    + assert (p = start) by lia. subst p.
      destruct (Nat.leb_spec (S start) start); [lia|].
      destruct (Nat.leb_spec start start); [|lia].
      destruct (Nat.ltb_spec start (start + S n)); [|lia]. simpl.
      destruct (Z.of_nat start =? phase), (Z.of_nat start =? cmdphase);
        simpl; rewrite ?Nat.eqb_refl; reflexivity.
    + assert (p <> start) by lia.
      replace (fold_left (drive (fun x y => (Sig_code x =? Sig_code y)%nat) (Sel p)) _ d)
        with d.
      * destruct (Nat.leb_spec (S start) p), (Nat.leb_spec start p),
          (Nat.ltb_spec p (S start + n)), (Nat.ltb_spec p (start + S n));
          simpl; try reflexivity; lia.
      * destruct (Z.of_nat start =? phase), (Z.of_nat start =? cmdphase);
          simpl; destruct (Nat.eqb_spec (8 + p) (8 + start)); try lia;
          simpl; try reflexivity;
          repeat (destruct (Nat.eqb_spec p start); try lia); reflexivity.
Qed.

(** X15. The source each phase is given: in READ (WRITE) the phase
    [rdcmdphase] ([wrcmdphase]) gets the housekeeping command, the phase
    [rdphase] ([wrphase]) the data command unless it is that same phase,
    every other phase is idle; in REFRESH phase 0 gets the refresh command
    and the others are idle; while waiting for a turnaround all phases are
    idle. *)
Theorem mux_sel_by_state :
  forall (s : Settings) (st : State) (x : Inputs) (p : nat),
    (p < nphases s)%nat ->
    sel s st x p =
    match st with
    | READ =>
        if Z.of_nat p =? rdcmdphase s then STEER_CMD
        else if Z.of_nat p =? rdphase s then STEER_REQ
        else STEER_NOP
    | WRITE =>
        if Z.of_nat p =? wrcmdphase s then STEER_CMD
        else if Z.of_nat p =? wrphase s then STEER_REQ
        else STEER_NOP
    | REFRESH => if (p =? 0)%nat then STEER_REFRESH else STEER_NOP
    | WTR | RTW _ => STEER_NOP
    end.
Proof.
  intros s st x p Hp. unfold sel, act. destruct st.
  - rewrite !value_app.
    match goal with
    | |- value _ _ (value _ _ (value _ _ _ ?l1) _) ?l3 = _ =>
        assert (E1 : value Sig_eqb (Sel p) STEER_NOP l1 = STEER_NOP)
          by (unfold value, carry_all, choose_ready; simpl;
              destruct (nphases s =? 1)%nat; reflexivity);
        rewrite E1
    end.
    unfold value at 2, steerer_sel. rewrite steerer_sel_value.
    destruct (Nat.leb_spec 0 p); [|lia].
    destruct (Nat.ltb_spec p (0 + nphases s)); [|lia]. simpl andb. cbv iota.
    unfold value, carry_all; simpl.
    destruct (write_available x), (negb (read_available x) || max_read_time x),
      (go_to_refresh x); reflexivity.
  - rewrite !value_app.
    match goal with
    | |- value _ _ (value _ _ (value _ _ _ ?l1) _) ?l3 = _ =>
        assert (E1 : value Sig_eqb (Sel p) STEER_NOP l1 = STEER_NOP)
          by (unfold value, carry_all, choose_ready; simpl;
              destruct (nphases s =? 1)%nat; reflexivity);
        rewrite E1
    end.
    unfold value at 2, steerer_sel. rewrite steerer_sel_value.
    destruct (Nat.leb_spec 0 p); [|lia].
    destruct (Nat.ltb_spec p (0 + nphases s)); [|lia]. simpl andb. cbv iota.
    unfold value, carry_all; simpl.
    destruct (read_available x), (negb (write_available x) || max_write_time x),
      (go_to_refresh x); reflexivity.
  - unfold value, carry_all; simpl. unfold Sig_eqb; simpl.
    destruct (refreshCmd_last x); simpl; destruct p; reflexivity.
  - unfold value, carry_all; simpl. destruct (twtrVote x); reflexivity.
  - reflexivity.
Qed.

(** Four phases, reads on phase 2 and their housekeeping on phase 1. *)
Lemma mux_sel_by_state_witness :
  sel (mkSettings 4 2 3 5) READ
    (mkInputs true false [true] true false false false true true false false true)
    1 = STEER_CMD.
Proof.
  apply (mux_sel_by_state (mkSettings 4 2 3 5) READ
           (mkInputs true false [true] true false false false true true
              false false true) 1).
  simpl. lia.
Defined.

Lemma mux_run_cons (s : Settings) (st : State) (x : Inputs) (l : list Inputs) :
  mux_run s st (x :: l) = mux_run s (next_state s st x) l.
Proof. reflexivity. Qed.

Lemma run_wait_RTW (s : Settings) (inputs : list Inputs) :
  forall k : nat,
    Z.of_nat k < read_latency s - 1 ->
    Z.of_nat (k + length inputs) <= read_latency s - 1 ->
    mux_run s (RTW k) inputs =
    if Z.of_nat (k + length inputs) <? read_latency s - 1
    then RTW (k + length inputs) else WRITE.
Proof.
  induction inputs as [|x l IH]; intros k Hk Hlen.
  - simpl. rewrite Nat.add_0_r.
    destruct (Z.ltb_spec (Z.of_nat k) (read_latency s - 1)); [reflexivity|lia].
  - rewrite mux_run_cons, next_state_eq. simpl length in *.
    destruct (Z.ltb_spec (Z.of_nat (S k)) (read_latency s - 1)).
    + rewrite IH by lia.
      replace (S k + length l)%nat with (k + S (length l))%nat by lia.
      reflexivity.
    + assert (l = []) by (destruct l; [reflexivity | simpl in Hlen; lia]).
      subst l. simpl.
      destruct (Z.ltb_spec (Z.of_nat (k + 1)) (read_latency s - 1));
        [lia|reflexivity].
Qed.

(** X16. When the control FSM leaves READ for a turnaround, it is in WRITE
    after [max(read_latency - 1, 0)] further cycles, whatever the inputs of
    those cycles: in between it waits in the chained states, which no
    refresh grant and no request can leave early. *)
Theorem mux_read_to_write_wait :
  forall (s : Settings) (x0 : Inputs) (rest : list Inputs),
    go_to_refresh x0 = false ->
    write_available x0 && (negb (read_available x0) || max_read_time x0) = true ->
    Z.of_nat (length rest) = Z.max (read_latency s - 1) 0 ->
    mux_run s READ (x0 :: rest) = WRITE
    /\ (forall j : nat,
          (j < length rest)%nat ->
          mux_run s READ (x0 :: firstn j rest) = RTW j).
Proof.
  intros s x0 rest Hgo Hturn Hlen.
  assert (E : next_state s READ x0
              = if 0 <? read_latency s - 1 then RTW 0 else WRITE)
    by (rewrite next_state_eq, Hgo, Hturn; reflexivity).
  rewrite mux_run_cons. revert E.
  destruct (Z.ltb_spec 0 (read_latency s - 1)) as [Hd|Hd]; intros E.
  - split.
    + rewrite E, run_wait_RTW by (simpl; lia). simpl.
      destruct (Z.ltb_spec (Z.of_nat (length rest)) (read_latency s - 1));
        [lia|reflexivity].
    + intros j Hj.
      assert (Hf : length (firstn j rest) = j) by (rewrite length_firstn; lia).
      rewrite mux_run_cons, E, run_wait_RTW by (simpl; rewrite ?Hf; lia).
      simpl. rewrite Hf.
      destruct (Z.ltb_spec (Z.of_nat j) (read_latency s - 1)); [reflexivity|lia].
  - assert (rest = []) by (destruct rest; [reflexivity | simpl in Hlen; lia]).
    subst rest. split.
    + simpl. exact E.
    + intros j Hj. simpl in Hj. lia.
Qed.

(** A turnaround with a read latency of 3, a refresh grant arriving while it
    waits. *)
Lemma mux_read_to_write_wait_witness :
  mux_run (mkSettings 4 2 3 3) READ
    [mkInputs false false [false] false true false false true true false false true;
     mkInputs true false [true] true false false false true true false false true;
     mkInputs true false [true] true false false false true true false false true]
  = WRITE.
Proof.
  apply (mux_read_to_write_wait (mkSettings 4 2 3 3)); reflexivity.
Defined.

Lemma any_true (l : list bool) :
  Turnaround.any l = true -> exists b, In b l /\ b = true.
Proof.
  unfold Turnaround.any, reduce. destruct l as [|b0 l]; [discriminate|].
  revert b0. induction l as [|b l IH]; simpl; intros b0 H.
  - exists b0. split; [now left | exact H].
  - apply IH in H as (b' & [<-|Hin] & Hb).
    + destruct b0 eqn:E0.
      * exists true. split; [now left | reflexivity].
      * exists b. split; [right; now left | exact Hb].
    + exists b'. split; [right; now right | exact Hb].
Qed.

Lemma any_false (l : list bool) :
  Turnaround.any l = false -> forall b, In b l -> b = false.
Proof.
  unfold Turnaround.any, reduce. destruct l as [|b0 l]; [intros _ b []|].
  revert b0. induction l as [|b l IH]; simpl; intros b0 H c Hc.
  - destruct Hc as [<-|[]]. exact H.
  - destruct b0, b; simpl in H.
    + specialize (IH true H true (or_introl eq_refl)). discriminate.
    + specialize (IH true H true (or_introl eq_refl)). discriminate.
    + specialize (IH true H true (or_introl eq_refl)). discriminate.
    + destruct Hc as [<-|[<-|Hc]]; try reflexivity.
      apply (IH false H). now right.
Qed.

(** X17. With [read_available] and [write_available] wired from the
    commands of the bank machines, the control FSM leaves READ for a
    turnaround only when some bank machine presents a valid write and either
    none presents a valid read or the read time is used up; it leaves WRITE
    for WTR only when some bank machine presents a valid read and either none
    presents a valid write or the write time is used up; and it never steps
    from WRITE to READ directly. *)
Theorem mux_turnaround_needs_pending :
  forall (s : Settings) (requests : list Endpoint) (x : Inputs),
    (next_state s READ (Turnaround.wire requests x) <> READ ->
     next_state s READ (Turnaround.wire requests x) <> REFRESH ->
     (exists req, In req requests /\ valid req = true /\ is_write req = true)
     /\ ((forall req, In req requests -> valid req && is_read req = false)
         \/ max_read_time x = true))
    /\ (next_state s WRITE (Turnaround.wire requests x) = WTR ->
        (exists req, In req requests /\ valid req = true /\ is_read req = true)
        /\ ((forall req, In req requests -> valid req && is_write req = false)
            \/ max_write_time x = true))
    /\ next_state s WRITE (Turnaround.wire requests x) <> READ.
Proof.
  intros s requests x. rewrite !next_state_eq. simpl.
  assert (Hex : forall (f : Endpoint -> bool),
            Turnaround.any (map (fun req => valid req && f req) requests) = true ->
            exists req, In req requests /\ valid req = true /\ f req = true).
  { intros f H. apply any_true in H as (b & Hin & ->).
    apply in_map_iff in Hin as (req & Hreq & Hin).
    exists req. apply andb_prop in Hreq as [? ?]. auto. }
  assert (Hno : forall (f : Endpoint -> bool),
            Turnaround.any (map (fun req => valid req && f req) requests) = false ->
            forall req, In req requests -> valid req && f req = false).
  { intros f H req Hin. apply (any_false _ H). apply in_map_iff. now exists req. }
  unfold Turnaround.reads, Turnaround.writes.
  destruct (go_to_refresh (Turnaround.wire requests x));
    destruct (Turnaround.any (map (fun req => valid req && is_write req) requests))
      eqn:Ew;
    destruct (Turnaround.any (map (fun req => valid req && is_read req) requests))
      eqn:Er;
    destruct (max_read_time x) eqn:Emr, (max_write_time x) eqn:Emw; simpl;
    repeat split; try discriminate; try congruence; intros;
    try congruence;
    try (now apply (Hex is_write)); try (now apply (Hex is_read));
    try (now right);
    try (left; now apply (Hno is_read)); try (left; now apply (Hno is_write)).
Qed.

(** X18. The anti-starvation timer: without a timeout [max_time] is never
    asserted; with a timeout of at least 2, after a cycle in which [en] is
    low, [max_time] is low for the first [timeout - 1] cycles in which [en]
    is held high, and high from then on; and from the reset value of the
    register [max_time] is high for as long as [en] is held. *)
Theorem anti_starvation_countdown :
  forall (timeout time k : nat),
    (timeout = 0%nat -> Turnaround.max_time timeout time = false)
    /\ ((1 < timeout)%nat ->
        Turnaround.max_time timeout
          (Turnaround.hold timeout k (Turnaround.time_step timeout false time))
        = (timeout - 1 <=? k)%nat)
    /\ ((1 < timeout)%nat ->
        Turnaround.max_time timeout (Turnaround.hold timeout k 0) = true).
Proof.
  intros timeout time k.
  assert (Hhold : (1 < timeout)%nat -> forall t0 j,
            Turnaround.hold timeout j t0 = (t0 - j)%nat).
  { intros Ht t0 j. induction j as [|j IH]; [simpl; lia|].
    unfold Turnaround.hold in *. simpl Nat.iter. rewrite IH.
    unfold Turnaround.time_step, Turnaround.max_time.
    destruct (Nat.eqb_spec timeout 0); [lia|]. simpl.
    destruct (Nat.eqb_spec (t0 - j) 0); simpl; lia. }
  repeat split.
  - intros ->. reflexivity.
  - intros Ht. rewrite Hhold by exact Ht.
    unfold Turnaround.time_step, Turnaround.max_time, Turnaround.t.
    destruct (Nat.eqb_spec timeout 0); [lia|]. simpl.
    destruct (Nat.eqb_spec (timeout - 1 - k) 0),
      (Nat.leb_spec (timeout - 1) k); try reflexivity; lia.
  - intros Ht. rewrite Hhold by exact Ht.
    unfold Turnaround.max_time.
    destruct (Nat.eqb_spec timeout 0); [lia|]. reflexivity.
Qed.

End MuxMoreFacts.

(** ** Logging of a bank machine *)

Section LoggingFacts.
Import Migen BankMachine Logging.

Lemma nth_tl (tracks : list bool) (j : nat) :
  nth (S j) tracks false = nth j (tl tracks) false.
Proof. destruct tracks; [now destruct j | reflexivity]. Qed.

Lemma nth_hd (tracks : list bool) : nth 0 tracks false = hd false tracks.
Proof. now destruct tracks. Qed.

(** The log signal at position [j] after the clock edge. *)
Lemma step_from_nth (ready : bool) :
  forall (sigs : list LogSig) (earlier : bool) (tracks : list bool) (j : nat)
         (x : LogSig),
    nth_error sigs j = Some x ->
    nth_error (step_from earlier ready tracks sigs) j =
    Some (mkLogSig
            (let rising := nth j tracks false && negb (track_edge x) in
             let confirmed :=
               ready && negb (earlier || existsb log_sig (firstn j sigs))
               && log_sig x in
             if set_after_confirm x
             then (if rising then true else if confirmed then false else log_sig x)
             else (if confirmed then false else if rising then true else log_sig x))
            (log_code x) (nth j tracks false) (set_after_confirm x)).
Proof.
  induction sigs as [|y sigs IH]; intros earlier tracks j x Hj.
  - destruct j; discriminate.
  - destruct j as [|j]; simpl in Hj.
    + injection Hj as ->. simpl. rewrite orb_false_r, nth_hd. reflexivity.
    + simpl step_from. simpl nth_error. rewrite (IH _ _ _ _ Hj).
      rewrite nth_tl. simpl firstn. simpl existsb. now rewrite orb_assoc.
Qed.

Lemma step_from_codes (ready : bool) :
  forall (sigs : list LogSig) (earlier : bool) (tracks : list bool),
    map log_code (step_from earlier ready tracks sigs) = map log_code sigs.
Proof.
  induction sigs as [|y sigs IH]; intros earlier tracks; [reflexivity|].
  simpl. now rewrite IH.
Qed.

Lemma step_from_blocked (ready : bool) :
  forall sigs : list LogSig,
    map log_sig (step_from true ready (map track_edge sigs) sigs)
    = map log_sig sigs.
Proof.
  induction sigs as [|y sigs IH]; [reflexivity|].
  simpl. rewrite IH. rewrite andb_false_r. simpl.
  destruct (track_edge y), (set_after_confirm y), (log_sig y); reflexivity.
Qed.

(** X19. The message sent is that of the first log signal that is set, and
    a cycle with [ready], in which no tracked signal rises, confirms exactly
    that one: it is cleared, the log signals after it stay set and those
    before it stay clear; without [ready] nothing is cleared. *)
Theorem log_confirms_first_pending :
  forall (pre post : list LogSig) (x : LogSig),
    Forall (fun y => log_sig y = false) pre ->
    log_sig x = true ->
    log_num (pre ++ x :: post) = log_code x
    /\ request (pre ++ x :: post) = true
    /\ map log_sig
         (step true (map track_edge (pre ++ x :: post)) (pre ++ x :: post))
       = map log_sig pre ++ false :: map log_sig post
    /\ map log_sig
         (step false (map track_edge (pre ++ x :: post)) (pre ++ x :: post))
       = map log_sig (pre ++ x :: post).
Proof.
  intros pre post x Hpre Hx. repeat split.
  - induction Hpre as [|y pre Hy _ IH]; simpl; [now rewrite Hx|].
    now rewrite Hy.
  - unfold request, reduce.
    destruct (map log_sig (pre ++ x :: post)) as [|b l] eqn:E.
    + destruct pre; discriminate.
    + assert (Hin : In true (b :: l)).
      { rewrite <- E. apply in_map_iff. exists x. split; [exact Hx|].
        apply in_or_app. right. now left. }
      clear E. revert b Hin. induction l as [|c l IH]; intros b Hin; simpl.
      * destruct Hin as [->|[]]. reflexivity.
      * apply IH. destruct Hin as [->|[->|Hin]].
        -- now left.
        -- left. now destruct b.
        -- now right.
  - unfold step. induction Hpre as [|y pre Hy _ IH]; simpl.
    + rewrite Hx. simpl. rewrite step_from_blocked.
      destruct (track_edge x), (set_after_confirm x); reflexivity.
    + rewrite Hy. simpl. rewrite IH.
      destruct (track_edge y), (set_after_confirm y); reflexivity.
  - unfold step. generalize false at 1. intros e.
    induction (pre ++ x :: post) as [|y l IH] in e |- *; [reflexivity|].
    simpl. rewrite IH.
    destruct (track_edge y), (set_after_confirm y), (log_sig y); reflexivity.
Qed.

(** The address vote waiting behind nothing, the valid vote behind it. *)
Lemma log_confirms_first_pending_witness :
  log_num ([mkLogSig false 2 true false]
           ++ mkLogSig true 7 true true :: [mkLogSig true 8 false true]) = 7.
Proof.
  apply (log_confirms_first_pending [mkLogSig false 2 true false]
           [mkLogSig true 8 false true] (mkLogSig true 7 true true)).
  - repeat constructor.
  - reflexivity.
Defined.

(** X20. A rising edge of the signal tracked by a log signal whose
    [log_rising_edge] comes after the confirmation (the two vote errors of a
    bank machine) always sets that log signal; for the other log signals the
    confirmation is the later statement, so the rising edge sets the log
    signal unless that signal is the one being confirmed in that cycle. *)
Theorem log_rising_edge_vs_confirm :
  forall (ready : bool) (tracks : list bool) (sigs : list LogSig) (j : nat)
         (x : LogSig),
    nth_error sigs j = Some x ->
    nth j tracks false = true ->
    track_edge x = false ->
    exists y : LogSig,
      nth_error (step ready tracks sigs) j = Some y
      /\ log_code y = log_code x
      /\ track_edge y = true
      /\ log_sig y =
         (set_after_confirm x
          || negb (ready && negb (existsb log_sig (firstn j sigs)) && log_sig x)).
Proof.
  intros ready tracks sigs j x Hj Htr Hed. unfold step.
  rewrite (step_from_nth ready sigs false tracks j x Hj).
  eexists. split; [reflexivity|]. simpl. rewrite Htr, Hed. simpl.
  split; [reflexivity|]. split; [reflexivity|].
  destruct (set_after_confirm x); [reflexivity|].
  destruct (ready && negb (existsb log_sig (firstn j sigs)) && log_sig x);
    reflexivity.
Qed.

(** The address vote error rising while it is being confirmed. *)
Lemma log_rising_edge_vs_confirm_witness :
  exists y : LogSig,
    nth_error (step true [true; false]
                 [mkLogSig true 7 false true; mkLogSig false 8 false true]) 0
    = Some y
    /\ log_sig y = true.
Proof.
  destruct (log_rising_edge_vs_confirm true [true; false]
              [mkLogSig true 7 false true; mkLogSig false 8 false true] 0
              (mkLogSig true 7 false true) eq_refl eq_refl eq_refl)
    as (y & Hy & _ & _ & Hs).
  exists y. split; [exact Hy | exact Hs].
Defined.

Lemma fsm_state_below_4 (st : State) : (fsm_state st =? 4) = false.
Proof. destruct st; reflexivity. Qed.

Lemma step_from_flags (ready : bool) :
  forall (sigs : list LogSig) (earlier : bool) (tracks : list bool),
    map set_after_confirm (step_from earlier ready tracks sigs)
    = map set_after_confirm sigs.
Proof.
  induction sigs as [|y sigs IH]; intros earlier tracks; [reflexivity|].
  simpl. now rewrite IH.
Qed.

Lemma bank_log_step_inv (verbose : bool) (s : Settings) (r : Regs)
    (sigs : list LogSig) (c : Cycle) :
  map log_code sigs = map log_code (bank_log_reset verbose) ->
  map set_after_confirm sigs = map set_after_confirm (bank_log_reset verbose) ->
  (forall x, nth_error sigs 6 = Some x -> log_sig x = false) ->
  map log_code (snd (bank_step verbose s (r, sigs) c))
  = map log_code (bank_log_reset verbose)
  /\ map set_after_confirm (snd (bank_step verbose s (r, sigs) c))
     = map set_after_confirm (bank_log_reset verbose)
  /\ (forall x, nth_error (snd (bank_step verbose s (r, sigs) c)) 6 = Some x ->
                log_sig x = false).
Proof.
  intros Hcodes Hflags Hclear. unfold bank_step, step. simpl fst. simpl snd.
  rewrite step_from_codes, step_from_flags.
  split; [exact Hcodes|]. split; [exact Hflags|].
  intros y Hy.
  destruct (nth_error sigs 6) as [x|] eqn:Ex.
  - rewrite (step_from_nth _ _ _ _ _ _ Ex) in Hy. injection Hy as <-.
    pose proof (map_nth_error set_after_confirm 6 sigs Ex) as Hf.
    rewrite Hflags in Hf. specialize (Hclear x eq_refl).
    destruct verbose; [|discriminate Hf].
    simpl in Hf. injection Hf as Hf.
    simpl. rewrite <- Hf, Hclear, fsm_state_below_4. simpl.
    now rewrite andb_false_r.
  - apply nth_error_None in Ex.
    assert (Hlen : length (step_from false (c_ready c)
                     (bank_tracks verbose s r (c_inputs c) (c_valid_vote c)) sigs)
                   = length sigs).
    { rewrite <- (length_map log_code), step_from_codes. now rewrite length_map. }
    assert (Hn : nth_error (step_from false (c_ready c)
                   (bank_tracks verbose s r (c_inputs c) (c_valid_vote c)) sigs) 6
                 = None) by (apply nth_error_None; lia).
    congruence.
Qed.

(** X21. [fsm_state] has two bits, so the number 4 assigned to it in the
    REFRESH state reads as 0, the number of REGULAR, and the signal tracked
    for the log code 6, [fsm_state == 4], is never high: whatever happens
    after reset, with or without verbose logging, the message sent never
    carries the code 6. *)
Theorem bank_log_never_reports_refresh :
  forall (verbose : bool) (s : Settings) (cycles : list Cycle),
    log_num (snd (bank_run verbose s cycles)) <> 6
    /\ (forall st : State, fsm_state st <> 4)
    /\ fsm_state REFRESH = fsm_state REGULAR.
Proof.
  intros verbose s cycles.
  assert (Hinv : forall (x : Regs * list LogSig),
            map log_code (snd x) = map log_code (bank_log_reset verbose) ->
            map set_after_confirm (snd x)
            = map set_after_confirm (bank_log_reset verbose) ->
            (forall y, nth_error (snd x) 6 = Some y -> log_sig y = false) ->
            let z := fold_left (bank_step verbose s) cycles x in
            map log_code (snd z) = map log_code (bank_log_reset verbose)
            /\ (forall y, nth_error (snd z) 6 = Some y -> log_sig y = false)).
  { induction cycles as [|c cycles IH]; intros x Hc Hf Hs; simpl.
    - split; assumption.
    - destruct x as [r sigs]. simpl in Hc, Hf, Hs.
      destruct (bank_log_step_inv verbose s r sigs c Hc Hf Hs) as (Hc' & Hf' & Hs').
      apply IH; assumption. }
  split; [|split].
  - unfold bank_run.
    destruct (Hinv (reset, bank_log_reset verbose) eq_refl eq_refl) as [Hc Hs].
    { simpl. intros y Hy. destruct verbose; simpl in Hy; [|discriminate].
      now injection Hy as <-. }
    revert Hc Hs. generalize (snd (fold_left (bank_step verbose s) cycles
                                     (reset, bank_log_reset verbose))).
    intros sigs Hc Hs. destruct verbose; simpl in Hc.
    + do 11 (destruct sigs as [|? sigs]; [discriminate|]).
      destruct sigs; [|discriminate].
      specialize (Hs _ eq_refl). simpl in Hc.
      injection Hc as H0 H1 H2 H3 H4 H5 H6 H7 H8 H9 H10.
      simpl. rewrite Hs, H0, H1, H2, H3, H4, H5, H7, H8, H9, H10.
      repeat match goal with
             | |- context [if log_sig ?x then _ else _] => destruct (log_sig x)
             end; discriminate.
    + do 2 (destruct sigs as [|? sigs]; [discriminate|]).
      destruct sigs; [|discriminate].
      injection Hc as H0 H1. simpl. rewrite H0, H1.
      repeat match goal with
             | |- context [if log_sig ?x then _ else _] => destruct (log_sig x)
             end; discriminate.
  - intros st. destruct st; discriminate.
  - reflexivity.
Qed.

End LoggingFacts.

(** ** Refresh rounds and what the arbiters take from the bank machines *)

Section RefreshFacts.
Import Migen TMR BankMachine Traces.

Lemma bank_run_app (s : Settings) (r : Regs) (l1 l2 : list Inputs) :
  bank_run s r (l1 ++ l2) = bank_run s (bank_run s r l1) l2.
Proof. unfold bank_run. apply fold_left_app. Qed.

Lemma bank_run_refresh (s : Settings) (held : list Inputs) :
  forall r : Regs,
    state r = REFRESH ->
    Forall (fun i => refresh_req i = true) held ->
    bank_run s r held =
    mkRegs REFRESH (row r)
      match held with [] => row_opened r | _ :: _ => false end.
Proof.
  induction held as [|i l IH]; intros r Hst Hall.
  - destruct r; simpl in *. now subst.
  - inversion Hall as [|i' l' Hi Hl]; subst i' l'.
    rewrite bank_run_cons.
    assert (E : step s r i = mkRegs REFRESH (row r) false)
      by (rewrite step_eq, Hst, Hi; reflexivity).
    rewrite E, IH by (try reflexivity; assumption). simpl.
    now destruct l.
Qed.

(** X22. A refresh round of a bank machine: a refresh request met in
    REGULAR takes priority over any pending request, and no command is
    issued in that cycle; the machine then stays in REFRESH for as long as
    the request is held, issuing no command, granting the refresh when its
    voted write-to-precharge guard is ready, and with the row closed after
    the first cycle there; it is back in REGULAR with the row closed the
    cycle after the request is withdrawn. *)
Theorem bank_refresh_round :
  forall (s : Settings) (r : Regs) (i0 : Inputs) (held : list Inputs)
         (i1 : Inputs),
    state r = REGULAR ->
    refresh_req i0 = true ->
    Forall (fun i => refresh_req i = true) held ->
    refresh_req i1 = false ->
    cmd_valid s r i0 = false
    /\ state (bank_run s r (i0 :: held)) = REFRESH
    /\ (held <> [] -> row_opened (bank_run s r (i0 :: held)) = false)
    /\ (forall i : Inputs,
          cmd_valid s (bank_run s r (i0 :: held)) i = false
          /\ refresh_gnt s (bank_run s r (i0 :: held)) i = twtpVote i)
    /\ bank_run s r (i0 :: held ++ [i1]) = mkRegs REGULAR (row r) false.
Proof.
  intros s r i0 held i1 Hst H0 Hheld H1.
  assert (Hv : cmd_valid s r i0 = false).
  { unfold cmd_valid. rewrite cmd_valid_regular by exact Hst. now rewrite H0. }
  assert (E0 : step s r i0 = mkRegs REFRESH (row r) (row_opened r))
    by (rewrite step_eq, Hst, H0; reflexivity).
  assert (E1 : bank_run s r (i0 :: held) =
               mkRegs REFRESH (row r)
                 match held with [] => row_opened r | _ :: _ => false end).
  { rewrite bank_run_cons, E0. now rewrite bank_run_refresh. }
  split; [exact Hv|]. rewrite E1. split; [reflexivity|]. split.
  { intros Hne. destruct held; [contradiction | reflexivity]. }
  split.
  - intros i. unfold cmd_valid, refresh_gnt. rewrite refresh_gnt_eq.
    split; [|reflexivity].
    unfold signal, value, carry_all, act. simpl.
    destruct (twtpVote i), (negb (refresh_req i)); reflexivity.
  - change (i0 :: held ++ [i1]) with ((i0 :: held) ++ [i1]).
    rewrite bank_run_app, E1. simpl. rewrite step_eq. simpl. now rewrite H1.
Qed.

(** A request for row 5 waiting while a refresh is asked for two cycles. *)
Lemma bank_refresh_round_witness :
  bank_run (mkSettings 10 14 14 21 3 true 3 3 0 3) (mkRegs REGULAR 5 true)
    (mkInputs true true true false false
       (mkReplica true false 0 true true 640 true true true)
       (mkReplica true false 0 true true 640 true true true)
       (mkReplica true false 0 true true 640 true true true)
     :: [mkInputs true true true false false
           (mkReplica true false 0 true true 640 true true true)
           (mkReplica true false 0 true true 640 true true true)
           (mkReplica true false 0 true true 640 true true true)]
        ++ [mkInputs true false true false false
              (mkReplica true false 0 true true 640 true true true)
              (mkReplica true false 0 true true 640 true true true)
              (mkReplica true false 0 true true 640 true true true)])
  = mkRegs REGULAR 5 false.
Proof.
  apply (bank_refresh_round (mkSettings 10 14 14 21 3 true 3 3 0 3)
           (mkRegs REGULAR 5 true)); try reflexivity.
  repeat constructor.
Defined.

(** X23. What the arbiters of the multiplexer take from a bank machine.
    The data arbiter in read mode (only reads wanted) counts a bank machine
    exactly when it presents a valid read, in write mode exactly when it
    presents a valid write; the housekeeping arbiter of a multi-phase
    system, for which nothing but activates is ever wanted, counts it
    exactly when it presents a valid precharge or activate, whether
    activates are wanted or not. *)
Theorem chooser_takes_bank_commands :
  forall (s : Settings) (r : Regs) (i : Inputs) (wa : bool),
    CommandChooser.valid_bit (CommandChooser.mkWants true false false false)
      (bank_cmd s r i)
    = cmd_valid s r i && cmd_is_read s r i
    /\ CommandChooser.valid_bit (CommandChooser.mkWants false true false false)
         (bank_cmd s r i)
       = cmd_valid s r i && cmd_is_write s r i
    /\ CommandChooser.valid_bit (CommandChooser.mkWants false false false wa)
         (bank_cmd s r i)
       = cmd_valid s r i && cmd_is_cmd s r i.
Proof.
  intros s r i wa.
  unfold CommandChooser.valid_bit, CommandChooser.command, CommandChooser.read,
    CommandChooser.write, CommandChooser.is_act_cmd, bank_cmd. simpl.
  unfold cmd_valid, cmd_cas, cmd_ras, cmd_we, cmd_is_cmd, cmd_is_read,
    cmd_is_write, signal, value, carry_all, act.
  generalize (auto_precharge s r i). intros ap.
  destruct (state r); simpl;
    repeat match goal with
           | |- context [if ?c then _ else _] => destruct c eqn:?; simpl
           end;
    repeat split; destruct wa; reflexivity.
Qed.

End RefreshFacts.

Section MuxRefreshFacts.
Import Migen Steerer Multiplexer Traces.

Lemma mux_run_app (s : Settings) (st : State) (l1 l2 : list Inputs) :
  mux_run s st (l1 ++ l2) = mux_run s (mux_run s st l1) l2.
Proof. unfold mux_run. apply fold_left_app. Qed.

Lemma mux_run_refresh (s : Settings) (held : list Inputs) :
  Forall (fun x => refreshCmd_last x = false) held ->
  mux_run s REFRESH held = REFRESH.
Proof.
  induction 1 as [|x l Hx _ IH]; [reflexivity|].
  rewrite mux_run_cons, next_state_eq, Hx. exact IH.
Qed.

(** X24. A refresh round of the control FSM: once every bank machine grants
    the refresh, READ and WRITE alike give way to REFRESH, whatever
    turnaround is pending; there the refresh command is ready to be taken
    and is steered to phase 0, until its [last] is seen; the FSM then
    resumes in READ, also when it was interrupted in WRITE. *)
Theorem mux_refresh_round :
  forall (s : Settings) (st : State) (x0 : Inputs) (held : list Inputs)
         (x1 : Inputs),
    st = READ \/ st = WRITE ->
    go_to_refresh x0 = true ->
    Forall (fun x => refreshCmd_last x = false) held ->
    refreshCmd_last x1 = true ->
    mux_run s st (x0 :: held) = REFRESH
    /\ (forall x : Inputs,
          refreshCmd_ready s REFRESH x = 1%nat
          /\ sel s REFRESH x 0 = STEER_REFRESH)
    /\ mux_run s st (x0 :: held ++ [x1]) = READ.
Proof.
  intros s st x0 held x1 Hst Hgo Hheld Hlast.
  assert (E0 : next_state s st x0 = REFRESH)
    by (rewrite next_state_eq; destruct Hst as [-> | ->]; now rewrite Hgo).
  assert (E1 : mux_run s st (x0 :: held) = REFRESH)
    by (rewrite mux_run_cons, E0; now apply mux_run_refresh).
  split; [exact E1|]. split.
  - intros x. unfold refreshCmd_ready, sel, value, carry_all, act. simpl.
    destruct (refreshCmd_last x); split; reflexivity.
  - change (x0 :: held ++ [x1]) with ((x0 :: held) ++ [x1]).
    rewrite mux_run_app, E1. simpl. now rewrite next_state_eq, Hlast.
Qed.

(** A refresh granted during WRITE, taking two cycles. *)
Lemma mux_refresh_round_witness :
  mux_run (mkSettings 4 2 3 3) WRITE
    (mkInputs true false [true; true] true true false false true true false false true
     :: [mkInputs true false [true; true] true true false false true true false false true]
        ++ [mkInputs true true [true; true] true true false false true true false false true])
  = READ.
Proof.
  apply (mux_refresh_round (mkSettings 4 2 3 3) WRITE); try reflexivity.
  - now right.
  - repeat constructor.
Defined.

Lemma steerer_sel_other (s : Settings) (phase cmdphase : Z) (sg : Sig) (d : nat) :
  (Sig_code sg < 8)%nat ->
  fold_left (drive Sig_eqb sg) (carry_all (steerer_sel s phase cmdphase)) d = d.
Proof.
  intros Hsg. unfold steerer_sel.
  induction (seq 0 (nphases s)) as [|p l IH]; [reflexivity|].
  cbn [flat_map]. rewrite carry_all_app, fold_left_app.
  replace (fold_left (drive Sig_eqb sg) (carry_all _) d) with d; [exact IH|].
  assert (Hne : Sig_eqb sg (Sel p) = false)
    by (unfold Sig_eqb; cbn [Sig_code]; apply Nat.eqb_neq; lia).
  unfold carry_all. cbn [flat_map carry app].
  destruct (Z.of_nat p =? phase), (Z.of_nat p =? cmdphase);
    cbn [flat_map carry app fold_left drive]; rewrite ?Hne; reflexivity.
Qed.

(** X25. The timing guards gate what the multiplexer accepts.  The
    housekeeping arbiter's command is taken only in READ or WRITE of a
    multi-phase system and, when it is an activate, only with [ras_allowed]
    (the row-to-row and four-activate guards).  The data arbiter's command
    is taken only in READ or WRITE with [cas_allowed] (the
    column-to-column guard) and, in a single-phase system where it also
    carries the activates, an activate only with [ras_allowed]. *)
Theorem mux_ready_gated :
  forall (s : Settings) (st : State) (x : Inputs),
    (value Sig_eqb Choose_cmd_ready 0%nat (act s st x) = 1%nat ->
     (st = READ \/ st = WRITE)
     /\ nphases s <> 1%nat
     /\ (choose_cmd_activate x = true -> ras_allowed x = true))
    /\ (value Sig_eqb Choose_req_ready 0%nat (act s st x) = 1%nat ->
        (st = READ \/ st = WRITE)
        /\ cas_allowed x = true
        /\ (nphases s = 1%nat -> choose_req_activate x = true ->
            ras_allowed x = true)).
Proof.
  intros s st x.
  assert (Hbody : forall (sg : Sig) (l1 l3 : list (Stmt Sig State nat))
                         (phase cmdphase : Z),
            (Sig_code sg < 8)%nat ->
            (forall d, fold_left (drive Sig_eqb sg) (carry_all l3) d = d) ->
            value Sig_eqb sg 0%nat (l1 ++ steerer_sel s phase cmdphase ++ l3)
            = value Sig_eqb sg 0%nat l1).
  { intros sg l1 l3 phase cmdphase Hsg H3. unfold value.
    rewrite !carry_all_app, !fold_left_app, H3.
    now apply steerer_sel_other. }
  assert (Htail : forall (sg : Sig) (c1 c2 c3 : bool) (t1 t2 : State) (d : nat),
            fold_left (drive Sig_eqb sg)
              (carry_all [ If c1 [ If c2 [ NextState t1 ] [] ] [];
                           If c3 [ NextState t2 ] [] ]) d = d).
  { intros sg c1 c2 c3 t1 t2 d. unfold carry_all; simpl.
    destruct c1, c2, c3; reflexivity. }
  unfold act. destruct st.
  - rewrite !Hbody by first [simpl; lia | apply Htail].
    unfold value, carry_all, choose_ready; simpl.
    destruct (Nat.eqb_spec (nphases s) 1); simpl;
      destruct (cas_allowed x), (ras_allowed x), (choose_cmd_activate x),
        (choose_req_activate x); simpl; split; intros H;
      try discriminate H; repeat split; try (now left); try assumption;
      try reflexivity; intros; try discriminate; try contradiction;
      try reflexivity.
  - rewrite !Hbody by first [simpl; lia | apply Htail].
    unfold value, carry_all, choose_ready; simpl.
    destruct (Nat.eqb_spec (nphases s) 1); simpl;
      destruct (cas_allowed x), (ras_allowed x), (choose_cmd_activate x),
        (choose_req_activate x); simpl; split; intros H;
      try discriminate H; repeat split; try (now right); try assumption;
      try reflexivity; intros; try discriminate; try contradiction;
      try reflexivity.
  - unfold value, carry_all; simpl. destruct (refreshCmd_last x); simpl;
      split; discriminate.
  - unfold value, carry_all; simpl. destruct (twtrVote x); simpl;
      split; discriminate.
  - unfold value, carry_all; simpl. split; discriminate.
Qed.

End MuxRefreshFacts.
